(** * DashCryptoCharts: the candle table, its indicators and the session

    A shallow embedding of [DashCryptoCharts.py]: the class [CryptoChart]
    (constructor, [fillDataFrame], [movingAverages]) and the Dash callback
    [displayCandleStick].

    Conventions of the embedding.
    - Python exceptions are values of [exn]; a statement is a function from the
      store to an [Outcome] and the store it leaves, so that what was written
      before a [raise] is still there when the exception is handled.
    - Floating-point numbers are idealised as real numbers; the missing marker
      NaN is [None] in [float := option R], and arithmetic propagates it.
    - The libraries the program calls (requests, json, pandas, datetime) are
      modelled by what they return or raise on the values the program hands
      them.  What depends on the host (the local time zone, the Unicode
      tables behind [str.upper]) is part of the world the program runs
      in. *)

From Stdlib Require Import String Ascii DecimalString.
From Stdlib Require Import Reals Lra Lia ZArith Bool Arith List.
Import ListNotations.

Set Implicit Arguments.

(** ** Python: exceptions and statements *)

(** The exception classes the program can meet.  [json.JSONDecodeError] is a
    subclass of [ValueError] and is caught as one. *)
Inductive exn : Type :=
| ValueError
| TypeError
| KeyError
| AttributeError
| ConnectionError.

Inductive Outcome (A : Type) : Type :=
| Return (a : A)
| Raise (e : exn).

Arguments Return {A} a.
Arguments Raise {A} e.

(** A statement over a store [S]. *)
Definition Py (S A : Type) : Type := S -> Outcome A * S.

Definition ret {S A} (a : A) : Py S A := fun s => (Return a, s).

Definition raise {S A} (e : exn) : Py S A := fun s => (Raise e, s).

Definition bind {S A B} (c : Py S A) (k : A -> Py S B) : Py S B :=
  fun s =>
    match c s with
    | (Return a, s') => k a s'
    | (Raise e, s') => (Raise e, s')
    end.

Definition get {S} : Py S S := fun s => (Return s, s).

Definition put {S} (s : S) : Py S unit := fun _ => (Return tt, s).

Definition modify {S} (f : S -> S) : Py S unit := fun s => (Return tt, f s).

(** Lifting the result of a pure library call. *)
Definition lift {S A} (o : Outcome A) : Py S A := fun s => (o, s).

(** [try: body except ValueError: handler]: the handler runs in the store the
    body left behind; any other exception passes through. *)
Definition try_except_ValueError {S} (body handler : Py S unit) : Py S unit :=
  fun s =>
    match body s with
    | (Raise ValueError, s') => handler s'
    | r => r
    end.

Declare Scope py_scope.
Delimit Scope py_scope with py.

Notation "x <- c ;; k" := (bind c (fun x => k))
  (at level 61, c at next level, right associativity) : py_scope.
Notation "c ;; k" := (bind c (fun _ => k))
  (at level 61, right associativity) : py_scope.

(** ** Floats and Series *)

(** A float64 value: a real number, or NaN. *)
Definition float : Type := option R.

Definition nan : float := None.

Definition lift2 (op : R -> R -> R) (a b : float) : float :=
  match a, b with
  | Some x, Some y => Some (op x y)
  | _, _ => None
  end.

Definition fadd : float -> float -> float := lift2 Rplus.
Definition fsub : float -> float -> float := lift2 Rminus.
Definition fmul : float -> float -> float := lift2 Rmult.
Definition fdiv : float -> float -> float := lift2 Rdiv.

(** A float64 Series (its index is that of the frame it was taken from). *)
Definition Series : Type := list float.

Fixpoint zip_with {A B C} (f : A -> B -> C) (xs : list A) (ys : list B) : list C :=
  match xs, ys with
  | x :: xs', y :: ys' => f x y :: zip_with f xs' ys'
  | _, _ => []
  end.

(** [a + b], [a - b] on Series, [a / c] and [c * a] with a scalar. *)
Definition series_add (a b : Series) : Series := zip_with fadd a b.
Definition series_sub (a b : Series) : Series := zip_with fsub a b.
Definition series_div (a : Series) (c : R) : Series := map (fun x => fdiv x (Some c)) a.
Definition scalar_mul (c : R) (a : Series) : Series := map (fun x => fmul (Some c) x) a.

(** *** Rolling windows

    [Series.rolling(window=n)] leaves [min_periods] at its default, the window
    length.  At row [i] the window holds rows [max 0 (i+1-n)] to [i]; the
    aggregate is computed over the observations of the window that are not NaN
    when there are at least [min_periods] of them, and is NaN otherwise. *)

Definition window (n i : nat) (xs : Series) : Series :=
  skipn (i + 1 - n) (firstn (i + 1) xs).

Fixpoint observed (w : Series) : list R :=
  match w with
  | [] => []
  | Some x :: w' => x :: observed w'
  | None :: w' => observed w'
  end.

Definition sum (xs : list R) : R := fold_right Rplus 0%R xs.

Definition mean (xs : list R) : R := (sum xs / INR (length xs))%R.

(** Sum of squared deviations from the mean, and the standard deviation with
    [ddof] degrees of freedom removed. *)
Definition ssqdm (xs : list R) : R :=
  sum (map (fun x => ((x - mean xs) * (x - mean xs))%R) xs).

Definition std (ddof : nat) (xs : list R) : R :=
  sqrt (ssqdm xs / (INR (length xs) - INR ddof)).

Definition rolling_mean (n : nat) (xs : Series) : Series :=
  map (fun i =>
         let obs := observed (window n i xs) in
         if n <=? length obs then Some (mean obs) else nan)
      (seq 0 (length xs)).

(** [.std()] of a rolling window: [ddof=1]; pandas also wants more
    observations than [ddof].  The keyword [skipna=True] the program passes is
    not a parameter of the rolling aggregate: pandas 1.x, which the program
    was written for, accepts and ignores it. *)
Definition rolling_std (n : nat) (xs : Series) : Series :=
  map (fun i =>
         let obs := observed (window n i xs) in
         if (n <=? length obs) && (1 <? length obs)
         then Some (std 1 obs) else nan)
      (seq 0 (length xs)).

(** ** pandas: cells, columns and frames *)

(** A scalar held in a column.  A JSON string is kept as what Python's
    [float()] makes of it: [Txt (Some x)] parses to [x], [Txt None] is a
    string [float()] rejects.  [Null] is JSON null, the filler of a short
    record, and NaN. *)
Inductive cell : Type :=
| Num (x : R)
| Txt (parsed : option R)
| Null.

Definition column : Type := list cell.

(** Column labels: positions of a frame built from bare lists, names after
    the columns are renamed. *)
Inductive label : Type :=
| Pos (i : nat)
| Name (s : string).

Definition label_eqb (a b : label) : bool :=
  match a, b with
  | Pos i, Pos j => Nat.eqb i j
  | Name s, Name t => String.eqb s t
  | _, _ => false
  end.

(** Calendar dates, as days since the epoch. *)
Definition date : Type := Z.

Inductive Index : Type :=
| RangeIndex (stop : nat)
| DateIndex (days : list date).

Record DataFrame : Type := {
  index : Index;
  columns : list (label * column)
}.

Definition nrows (d : DataFrame) : nat :=
  match index d with
  | RangeIndex n => n
  | DateIndex ds => length ds
  end.

(** [pd.DataFrame(rows)] for a list of lists: as many columns as the longest
    record has fields, shorter records filled up with the missing marker. *)
Definition width (rows : list (list cell)) : nat :=
  fold_right (fun r m => Nat.max (length r) m) 0 rows.

Definition pd_DataFrame (rows : list (list cell)) : DataFrame :=
  {| index := RangeIndex (length rows);
     columns := map (fun j => (Pos j, map (fun r => nth j r Null) rows))
                    (seq 0 (width rows)) |}.

(** [df.iloc[:, 0:6]]: the first six columns (all of them when there are
    fewer). *)
Definition iloc_0_6 (d : DataFrame) : DataFrame :=
  {| index := index d; columns := firstn 6 (columns d) |}.

(** [df.columns = names]: [ValueError] (length mismatch) unless there is one
    name per column. *)
Definition set_columns (names : list string) (d : DataFrame) : Outcome DataFrame :=
  if length names =? length (columns d)
  then Return {| index := index d;
                 columns := combine (map Name names) (map snd (columns d)) |}
  else Raise ValueError.

(** [df[k]]: [KeyError] when there is no such column. *)
Fixpoint lookup (k : label) (cols : list (label * column)) : option column :=
  match cols with
  | [] => None
  | (k', c) :: rest => if label_eqb k k' then Some c else lookup k rest
  end.

Definition getitem (k : string) (d : DataFrame) : Outcome column :=
  match lookup (Name k) (columns d) with
  | Some c => Return c
  | None => Raise KeyError
  end.

(** [df[k] = s]: replaces the column labelled [k], or appends a new one. *)
Fixpoint assign (k : label) (c : column) (cols : list (label * column))
  : list (label * column) :=
  match cols with
  | [] => [(k, c)]
  | (k', c') :: rest =>
      if label_eqb k k' then (k', c) :: rest else (k', c') :: assign k c rest
  end.

Definition of_float (x : float) : cell :=
  match x with
  | Some r => Num r
  | None => Null
  end.

Definition setitem (k : string) (s : Series) (d : DataFrame) : DataFrame :=
  {| index := index d;
     columns := assign (Name k) (map of_float s) (columns d) |}.

(** [.astype('float')]: numbers and numeric strings become floats, the
    missing marker becomes NaN, any other string raises [ValueError]. *)
Definition float_of_cell (c : cell) : option float :=
  match c with
  | Num x => Some (Some x)
  | Txt (Some x) => Some (Some x)
  | Txt None => None
  | Null => Some nan
  end.

Fixpoint floats_of (col : column) : option Series :=
  match col with
  | [] => Some []
  | c :: rest =>
      match float_of_cell c, floats_of rest with
      | Some x, Some xs => Some (x :: xs)
      | _, _ => None
      end
  end.

Definition astype_float (col : column) : Outcome Series :=
  match floats_of col with
  | Some s => Return s
  | None => Raise ValueError
  end.

(** ** The indicator engine: [CryptoChart.movingAverages]

    The method works on [self.df] in place, one assignment after the other;
    here it is a statement over the frame. *)

Local Open Scope py_scope.
Local Open Scope string_scope.

(** [self.df[k].astype('float')] *)
Definition col_float (k : string) : Py DataFrame Series :=
  d <- get ;;
  c <- lift (getitem k d) ;;
  lift (astype_float c).

(** [self.df[k] = s] *)
Definition store (k : string) (s : Series) : Py DataFrame unit :=
  modify (setitem k s).

Definition movingAverages : Py DataFrame unit :=
  (c <- col_float "Close" ;; store "21MA" (rolling_mean 21 c)) ;;
  (c <- col_float "Close" ;; store "50MA" (rolling_mean 50 c)) ;;
  (c <- col_float "Close" ;; store "100MA" (rolling_mean 100 c)) ;;
  (c <- col_float "Close" ;; store "200MA" (rolling_mean 200 c)) ;;
  (c <- col_float "Close" ;;
   h <- col_float "High" ;;
   l <- col_float "Low" ;;
   store "TP" (series_div (series_add (series_add c h) l) 3)) ;;
  (tp <- col_float "TP" ;; store "STD" (rolling_std 20 tp)) ;;
  (* [self.df['STD']] is read as it was stored the line before: float64 *)
  (tp <- col_float "TP" ;;
   sd <- col_float "STD" ;;
   store "BOLU" (series_add (rolling_mean 20 tp) (scalar_mul 2 sd))) ;;
  (tp <- col_float "TP" ;;
   sd <- col_float "STD" ;;
   store "BOLD" (series_sub (rolling_mean 20 tp) (scalar_mul 2 sd))).

(** ** The outside world *)

(** What [requests.get(...).text] followed by [json.loads] finds. *)
Inductive Json : Type :=
| JObject (code : Z) (msg : string)
  (** an object of scalars, as the quote source answers a bad request:
      [{"code": -1121, "msg": "Invalid symbol."}] *)
| JArray (rows : list (list cell)).
  (** an array of arrays of scalars *)

(** The text of an answer, as [json.loads] reads it. *)
Inductive Body : Type :=
| NotJson
  (** not JSON at all: [json.loads] raises [JSONDecodeError] *)
| Doc (j : Json).

Inductive Reply : Type :=
| Unreachable
  (** the transport fails: [requests.get] raises [ConnectionError] *)
| Answer (b : Body).

Record Params : Type := {
  p_symbol : string;
  p_interval : string;
  p_startTime : string;
  p_endTime : string;
  p_limit : string
}.

Record Request : Type := {
  r_url : string;
  r_params : Params
}.

(** ** The session object *)

Record CryptoChart : Type := {
  indicators : list string;
  url : string;
  symbol : string;
  interval : string;
  startTime : string;
  endTime : string;
  limit : string;
  req_params : option Params;   (* [None] is the initial [''] *)
  df : option DataFrame         (* [None]: the attribute is not set yet *)
}.

(** The store the program runs in: the module-level [Chart] and the
    environment.
    - [clock k] is the [k]-th reading of the wall clock: the naive local
      datetime [dt.datetime.now()] returns, in microseconds of local
      wall-clock time; [reads] counts the readings taken so far, so
      [clock reads] is the current time.
    - [net k] is the answer of the quote source to the [k]-th request;
      [sent] lists the requests issued so far, oldest first.
    - [fromtimestamp c] is [dt.date.fromtimestamp(x/1000)] for a cell [x] of
      the [Date] column: the calendar day in the local zone, or the exception
      Python raises for that value.
    - [posix_seconds t] is [int(t.timestamp())] for the naive local datetime
      [t]: the whole seconds since the epoch that the runtime computes for
      it, through the rules of the local zone (daylight saving included) and
      in double precision.
    - [str_upper s] is [s.upper()], which follows the Unicode case tables of
      the runtime (it may change characters outside ASCII, and the length
      of the text). *)
Record World : Type := {
  Chart : CryptoChart;
  clock : nat -> Z;
  reads : nat;
  net : nat -> Reply;
  sent : list Request;
  fromtimestamp : cell -> Outcome date;
  posix_seconds : Z -> Z;
  str_upper : string -> string
}.

Definition current_time (w : World) : Z := clock w (reads w).

Definition with_Chart (c : CryptoChart) (w : World) : World :=
  {| Chart := c; clock := clock w; reads := reads w; net := net w;
     sent := sent w; fromtimestamp := fromtimestamp w;
     posix_seconds := posix_seconds w; str_upper := str_upper w |}.

(** [dt.datetime.now()] *)
Definition now : Py World Z :=
  fun w => (Return (current_time w),
            {| Chart := Chart w; clock := clock w; reads := S (reads w);
               net := net w; sent := sent w;
               fromtimestamp := fromtimestamp w;
               posix_seconds := posix_seconds w; str_upper := str_upper w |}).

(** [requests.get(url, params=p).text]: the request goes out, the next answer
    of the quote source comes back. *)
Definition requests_get (u : string) (p : Params) : Py World Body :=
  fun w =>
    let w' := {| Chart := Chart w; clock := clock w; reads := reads w;
                 net := net w;
                 sent := sent w ++ [{| r_url := u; r_params := p |}];
                 fromtimestamp := fromtimestamp w;
                 posix_seconds := posix_seconds w;
                 str_upper := str_upper w |} in
    match net w (length (sent w)) with
    | Unreachable => (Raise ConnectionError, w')
    | Answer b => (Return b, w')
    end.

Definition json_loads (b : Body) : Outcome Json :=
  match b with
  | NotJson => Raise ValueError
  | Doc j => Return j
  end.

(** [pd.DataFrame(j)]: an object of scalars has no index to build the frame
    on ([ValueError]). *)
Definition DataFrame_of_json (j : Json) : Outcome DataFrame :=
  match j with
  | JObject _ _ => Raise ValueError
  | JArray rows => Return (pd_DataFrame rows)
  end.

(** ** [CryptoChart]: constructor and [fillDataFrame] *)

Definition self : Py World CryptoChart :=
  w <- get ;; ret (Chart w).

Definition set_symbol (s : string) : Py World unit :=
  modify (fun w =>
    let c := Chart w in
    with_Chart {| indicators := indicators c; url := url c; symbol := s;
                  interval := interval c; startTime := startTime c;
                  endTime := endTime c; limit := limit c;
                  req_params := req_params c; df := df c |} w).

Definition set_req_params (p : Params) : Py World unit :=
  modify (fun w =>
    let c := Chart w in
    with_Chart {| indicators := indicators c; url := url c; symbol := symbol c;
                  interval := interval c; startTime := startTime c;
                  endTime := endTime c; limit := limit c;
                  req_params := Some p; df := df c |} w).

Definition set_df (d : DataFrame) : Py World unit :=
  modify (fun w =>
    let c := Chart w in
    with_Chart {| indicators := indicators c; url := url c; symbol := symbol c;
                  interval := interval c; startTime := startTime c;
                  endTime := endTime c; limit := limit c;
                  req_params := req_params c; df := Some d |} w).

(** [self.df]: [AttributeError] while the attribute is not set. *)
Definition the_df : Py World DataFrame :=
  me <- self ;;
  match df me with
  | Some d => ret d
  | None => raise AttributeError
  end.

(** A statement on the frame [self.df], run in place: what it has written is
    kept also when it raises. *)
Definition on_df {A} (c : Py DataFrame A) : Py World A :=
  d <- the_df ;;
  match c d with
  | (Return a, d') => set_df d' ;; ret a
  | (Raise e, d') => set_df d' ;; raise e
  end.

(** The elements of a comprehension, up to the first that raises. *)
Fixpoint each {A B} (f : A -> Outcome B) (xs : list A) : Outcome (list B) :=
  match xs with
  | [] => Return []
  | x :: rest =>
      match f x with
      | Raise e => Raise e
      | Return y =>
          match each f rest with
          | Raise e => Raise e
          | Return ys => Return (y :: ys)
          end
      end
  end.

Definition column_names : list string :=
  ["Date"; "Open"; "High"; "Low"; "Close"; "Volume"].

Definition fillDataFrame (sym : string) : Py World unit :=
  me <- self ;;
  let oldSymbol := symbol me in
  try_except_ValueError
    (set_symbol sym ;;
     me <- self ;;
     let p := {| p_symbol := symbol me;
                 p_interval := interval me;
                 p_startTime := startTime me;
                 p_endTime := endTime me;
                 p_limit := limit me |} in
     set_req_params p ;;
     text <- requests_get (url me) p ;;
     j <- lift (json_loads text) ;;
     d <- lift (DataFrame_of_json j) ;;
     set_df d ;;
     (d <- the_df ;; set_df (iloc_0_6 d)) ;;
     on_df (d <- get ;; d' <- lift (set_columns column_names d) ;; put d') ;;
     (w <- get ;;
      d <- the_df ;;
      c <- lift (getitem "Date" d) ;;
      days <- lift (each (fromtimestamp w) c) ;;
      set_df {| index := DateIndex days; columns := columns d |}) ;;
     on_df movingAverages)
    (* symbol changed back to previous symbol *)
    (set_symbol oldSymbol).

(** [str(n)] of an integer. *)
Definition str (n : Z) : string := NilZero.string_of_int (Z.to_int n).

(** [dt.timedelta(days=n)], in microseconds. *)
Definition timedelta_days (n : Z) : Z := (n * 86400 * 1000000)%Z.

Definition CryptoChart_init : Py World unit :=
  t_start <- now ;;
  t_end <- now ;;
  w <- get ;;
  modify (with_Chart
    {| indicators := ["21MA"; "50MA"; "100MA"; "200MA"; "Bollinger Bands"];
       url := "https://api.binance.com/api/v3/klines";
       symbol := "";
       interval := "1d";
       startTime := str (posix_seconds w (t_start - timedelta_days 1000) * 1000);
       endTime := str (posix_seconds w t_end * 1000);
       limit := "1000";
       req_params := None;
       df := None |}) ;;
  fillDataFrame "BTCUSDT".

(** The world when the constructor reaches its last line: the clock has been
    read twice and the attributes are set. *)
Definition constructed (w : World) : World :=
  {| Chart :=
       {| indicators := ["21MA"; "50MA"; "100MA"; "200MA"; "Bollinger Bands"];
          url := "https://api.binance.com/api/v3/klines";
          symbol := "";
          interval := "1d";
          startTime :=
            str (posix_seconds w (clock w (reads w) - timedelta_days 1000)
                 * 1000);
          endTime := str (posix_seconds w (clock w (S (reads w))) * 1000);
          limit := "1000";
          req_params := None;
          df := None |};
     clock := clock w; reads := S (S (reads w)); net := net w;
     sent := sent w; fromtimestamp := fromtimestamp w;
     posix_seconds := posix_seconds w; str_upper := str_upper w |}.

(** ** The callback [displayCandleStick] *)

(** Capitalisation of the letters a to z, every other character left as it
    is: what [str.upper()] does on ASCII text.  The sample worlds below use
    it as their [str_upper]; they are only given ASCII symbols. *)
Definition upper_ascii (c : ascii) : ascii :=
  let n := nat_of_ascii c in
  if ((97 <=? n)%nat && (n <=? 122)%nat)%bool then ascii_of_nat (n - 32) else c.

Fixpoint upper (s : string) : string :=
  match s with
  | EmptyString => EmptyString
  | String c rest => String (upper_ascii c) (upper rest)
  end.

(** The figure, as far as it depends on the session: the candlestick trace
    and the line traces laid over it. *)
Record Candlestick : Type := {
  cs_x : column;
  cs_open : column;
  cs_close : column;
  cs_high : column;
  cs_low : column
}.

Record Scatter : Type := {
  sc_x : column;
  sc_y : Series;
  sc_name : string
}.

Record Figure : Type := {
  candles : Candlestick;
  traces : list Scatter
}.

(** [Chart.df[k]] and [Chart.df[k].astype('float')] *)
Definition Chart_col (k : string) : Py World column :=
  d <- the_df ;; lift (getitem k d).

Definition Chart_float (k : string) : Py World Series :=
  c <- Chart_col k ;; lift (astype_float c).

Definition line (name k : string) : Py World Scatter :=
  x <- Chart_col "Date" ;;
  y <- Chart_float k ;;
  ret {| sc_x := x; sc_y := y; sc_name := name |}.

Fixpoint add_traces (list_ : list string) (fig : list Scatter)
  : Py World (list Scatter) :=
  match list_ with
  | [] => ret fig
  | i :: rest =>
      if String.eqb i "Bollinger Bands"
      then
        u <- line "Upper Bollinger Band" "BOLU" ;;
        l <- line "Lower Bollinger Band" "BOLD" ;;
        add_traces rest (fig ++ [u; l])
      else
        t <- line i i ;;
        add_traces rest (fig ++ [t])
  end.

Definition displayCandleStick (value : option string) (list_ : list string)
  : Py World Figure :=
  (* If user inputs new symbol to chart, update data frame *)
  match value with
  | Some v => w <- get ;; fillDataFrame (str_upper w v ++ "USDT")
  | None => ret tt
  end ;;
  x <- Chart_col "Date" ;;
  o <- Chart_col "Open" ;;
  c <- Chart_col "Close" ;;
  h <- Chart_col "High" ;;
  l <- Chart_col "Low" ;;
  ts <- add_traces list_ [] ;;
  ret {| candles := {| cs_x := x; cs_open := o; cs_close := c;
                       cs_high := h; cs_low := l |};
         traces := ts |}.

(** The session: the module is loaded ([Chart = CryptoChart()]), then the
    callback runs once per event. *)
Fixpoint serve (events : list (option string * list string)) : Py World unit :=
  match events with
  | [] => ret tt
  | (value, list_) :: rest =>
      fun w => serve rest (snd (displayCandleStick value list_ w))
  end.

(** ** Vocabulary of the specification *)

(** Rows [from] to [from + len - 1] of a Series. *)
Definition rows_of (from len : nat) (xs : Series) : Series :=
  firstn len (skipn from xs).

(** The naive recomputation the specification compares with: float
    arithmetic over the listed values, NaN propagating. *)
Definition fsum (vs : list float) : float := fold_right fadd (Some 0%R) vs.

Definition count (vs : list float) : float := Some (INR (length vs)).

Definition arithmetic_mean (vs : list float) : float := fdiv (fsum vs) (count vs).

(** The values of a window that are present: missing values are skipped. *)
Fixpoint present (vs : list float) : list R :=
  match vs with
  | [] => []
  | Some x :: rest => x :: present rest
  | None :: rest => present rest
  end.

Definition total (xs : list R) : R := fold_right Rplus 0%R xs.

(** Sample standard deviation of the values present, unbiased: denominator
    [n - 1] for [n] values; there is none for fewer than two values. *)
Definition sample_std (vs : list float) : float :=
  let xs := present vs in
  let n := INR (length xs) in
  let m := (total xs / n)%R in
  if (length xs <=? 1)%nat then nan
  else Some (sqrt (total (map (fun x => ((x - m) * (x - m))%R) xs) / (n - 1))).

(** The configured windows. *)
Definition moving_average_windows : list (string * nat) :=
  [("21MA", 21); ("50MA", 50); ("100MA", 100); ("200MA", 200)].

Definition bollinger_windows : list (string * nat) :=
  [("STD", 20); ("BOLU", 20); ("BOLD", 20)].

(** A candle table read as floats: [c], [h] and [l] are its [Close], [High]
    and [Low] columns, one value per row. *)
Record prices (d : DataFrame) (c h l : Series) : Prop := {
  prices_close : exists col, lookup (Name "Close") (columns d) = Some col
                             /\ floats_of col = Some c;
  prices_high : exists col, lookup (Name "High") (columns d) = Some col
                            /\ floats_of col = Some h;
  prices_low : exists col, lookup (Name "Low") (columns d) = Some col
                           /\ floats_of col = Some l;
  prices_high_rows : length h = length c;
  prices_low_rows : length l = length c
}.

(** The Series the engine derives from the prices. *)
Definition typical_price (c h l : Series) : Series :=
  series_div (series_add (series_add c h) l) 3.

Definition upper_band (tp : Series) : Series :=
  series_add (rolling_mean 20 tp) (scalar_mul 2 (rolling_std 20 tp)).

Definition lower_band (tp : Series) : Series :=
  series_sub (rolling_mean 20 tp) (scalar_mul 2 (rolling_std 20 tp)).

(** The frame with all indicator columns attached. *)
Definition with_indicators (c h l : Series) (d : DataFrame) : DataFrame :=
  let tp := typical_price c h l in
  setitem "BOLD" (lower_band tp)
    (setitem "BOLU" (upper_band tp)
      (setitem "STD" (rolling_std 20 tp)
        (setitem "TP" tp
          (setitem "200MA" (rolling_mean 200 c)
            (setitem "100MA" (rolling_mean 100 c)
              (setitem "50MA" (rolling_mean 50 c)
                (setitem "21MA" (rolling_mean 21 c) d))))))).

(** The session state of the specification: the active symbol and table. *)
Definition session (w : World) : string * option DataFrame :=
  (symbol (Chart w), df (Chart w)).

(** The answer the quote source gives to the next request. *)
Definition next_reply (w : World) : Reply := net w (length (sent w)).

(** The request [fillDataFrame sym] sends from the world [w]. *)
Definition request_for (sym : string) (w : World) : Request :=
  {| r_url := url (Chart w);
     r_params := {| p_symbol := sym;
                    p_interval := interval (Chart w);
                    p_startTime := startTime (Chart w);
                    p_endTime := endTime (Chart w);
                    p_limit := limit (Chart w) |} |}.

(** The candle table [fillDataFrame] builds from the records of an answer,
    before the indicators are attached. *)
Definition candle_table (days : list date) (rows : list (list cell)) : DataFrame :=
  {| index := DateIndex days;
     columns := combine (map Name column_names)
                        (map snd (firstn 6 (columns (pd_DataFrame rows)))) |}.

(** A fetch that succeeds: the answer is an array of records with at least
    six fields somewhere, every [Date] converts, and the prices are numeric. *)
Record accepted (w : World) (rows : list (list cell)) (days : list date)
  (c h l : Series) : Prop := {
  accepted_reply : next_reply w = Answer (Doc (JArray rows));
  accepted_width : 6 <= width rows;
  accepted_days : each (fromtimestamp w) (map (fun r => nth 0 r Null) rows)
                  = Return days;
  accepted_prices : prices (candle_table days rows) c h l
}.

(** The world with another table in the session. *)
Definition with_df (t : option DataFrame) (w : World) : World :=
  let c := Chart w in
  with_Chart {| indicators := indicators c; url := url c; symbol := symbol c;
                interval := interval c; startTime := startTime c;
                endTime := endTime c; limit := limit c;
                req_params := req_params c; df := t |} w.

(** How many of the events carry a symbol. *)
Definition fetches (events : list (option string * list string)) : nat :=
  length (filter (fun e => match fst e with Some _ => true | None => false end)
                 events).

(** Lines 53 to 59 of [fillDataFrame]: what is done with the text of an
    answer once it has arrived. *)
Definition build_table (text : Body) : Py World unit :=
  j <- lift (json_loads text) ;;
  d <- lift (DataFrame_of_json j) ;;
  set_df d ;;
  (d <- the_df ;; set_df (iloc_0_6 d)) ;;
  on_df (d <- get ;; d' <- lift (set_columns column_names d) ;; put d') ;;
  (w <- get ;;
   d <- the_df ;;
   c <- lift (getitem "Date" d) ;;
   days <- lift (each (fromtimestamp w) c) ;;
   set_df {| index := DateIndex days; columns := columns d |}) ;;
  on_df movingAverages.

(** The world right after the request of [fillDataFrame sym] has gone out. *)
Definition requested (sym : string) (w : World) : World :=
  let c := Chart w in
  {| Chart := {| indicators := indicators c; url := url c; symbol := sym;
                 interval := interval c; startTime := startTime c;
                 endTime := endTime c; limit := limit c;
                 req_params := Some (r_params (request_for sym w));
                 df := df c |};
     clock := clock w; reads := reads w; net := net w;
     sent := sent w ++ [request_for sym w];
     fromtimestamp := fromtimestamp w;
     posix_seconds := posix_seconds w; str_upper := str_upper w |}.

(** What no fetch touches: the environment and the request settings of the
    session. *)
Definition backdrop (w : World) :=
  (clock w, reads w, net w, fromtimestamp w, posix_seconds w, str_upper w,
   (indicators (Chart w), url (Chart w), interval (Chart w),
    startTime (Chart w), endTime (Chart w), limit (Chart w))).

(** A statement that only reads the world. *)
Definition ReadOnly {A} (c : Py World A) : Prop := forall w, snd (c w) = w.

(** "Recovered locally": the call returns and the session is as before. *)
Definition recovered_locally (sym : string) (w : World) : Prop :=
  fst (fillDataFrame sym w) = Return tt
  /\ session (snd (fillDataFrame sym w)) = session w.

(** The table of the session after the callback has run with a symbol. *)
Definition table_after (v : string) (list_ : list string) (w : World)
  : option DataFrame :=
  df (Chart (snd (displayCandleStick (Some v) list_ w))).

(** The request settings of the specification. *)
Definition window_of (w : World) (t_start t_end : Z) (r : Request) : Prop :=
  r_url r = "https://api.binance.com/api/v3/klines"
  /\ p_interval (r_params r) = "1d"
  /\ p_limit (r_params r) = "1000"
  /\ p_startTime (r_params r)
     = str (posix_seconds w (t_start - timedelta_days 1000) * 1000)
  /\ p_endTime (r_params r) = str (posix_seconds w t_end * 1000).

(** ** Sample data *)

(** One daily record as the quote source sends it: the opening time in
    milliseconds, then open, high, low, close and volume as strings. *)
Definition kline (day close : Z) : list cell :=
  [Num (IZR (day * 86400000));
   Txt (Some (IZR close)); Txt (Some (IZR (close + 1)));
   Txt (Some (IZR (close - 1))); Txt (Some (IZR close)); Txt (Some 7%R)].

(** The same record without its volume field. *)
Definition kline_no_volume (day close : Z) : list cell :=
  firstn 5 (kline day close).

Definition closes_100_124 : list Z :=
  [100; 101; 102; 103; 104; 105; 106; 107; 108; 109; 110; 111; 112;
   113; 114; 115; 116; 117; 118; 119; 120; 121; 122; 123; 124]%Z.

Fixpoint klines_from (day : Z) (closes : list Z) : list (list cell) :=
  match closes with
  | [] => []
  | z :: rest => kline day z :: klines_from (day + 1) rest
  end.

(** A table of 25 daily rows, closing at 100, 101, ..., 124. *)
Definition table_25 : DataFrame :=
  candle_table (map Z.of_nat (seq 0 25)) (klines_from 0 closes_100_124).

(** A world to start in: the local zone is UTC; the clock reads 2023-11-14
    22:13:20 at construction and one day more afterwards; the quote source
    sends [first] and then [second]. *)
Definition no_chart : CryptoChart :=
  {| indicators := []; url := ""; symbol := ""; interval := "";
     startTime := ""; endTime := ""; limit := "";
     req_params := None; df := None |}.

(** Whole seconds of an instant given in microseconds, in a zone without
    offset. *)
Definition utc_seconds (t : Z) : Z := (t / 1000000)%Z.

Definition utc_day (c : cell) : Outcome date :=
  match c with
  | Num x => Return (Int_part (x / 86400000))
  | Txt _ => Raise TypeError
  | Null => Raise ValueError
  end.

Definition boot (first second : Reply) : World :=
  {| Chart := no_chart;
     clock := fun k => match k with
                       | 0 => 1700000000000000%Z
                       | 1 => 1700000000000007%Z
                       | _ => 1700086400000000%Z
                       end;
     reads := 0;
     net := fun k => match k with 0 => first | _ => second end;
     sent := [];
     fromtimestamp := utc_day;
     posix_seconds := utc_seconds;
     str_upper := upper |}.

Definition two_days : Reply :=
  Answer (Doc (JArray [kline 0 100; kline 1 101])).

Definition two_days_no_volume : Reply :=
  Answer (Doc (JArray [kline_no_volume 0 100; kline_no_volume 1 101])).

(** The session after the module has loaded with a good first answer. *)
Definition running (second : Reply) : World :=
  snd (CryptoChart_init (boot two_days second)).

(** The prices and days of the two-day answer. *)
Definition two_closes : Series := [Some 100%R; Some 101%R].
Definition two_highs : Series := [Some (IZR (100 + 1)); Some (IZR (101 + 1))].
Definition two_lows : Series := [Some (IZR (100 - 1)); Some (IZR (101 - 1))].

Definition two_dates : list date :=
  [Int_part (IZR (0 * 86400000) / 86400000);
   Int_part (IZR (1 * 86400000) / 86400000)].

Definition two_day_table : DataFrame :=
  with_indicators two_closes two_highs two_lows
    (candle_table two_dates [kline 0 100; kline 1 101]).

(** ** Further vocabulary *)

(** The columns the engine writes. *)
Definition indicator_names : list string :=
  ["21MA"; "50MA"; "100MA"; "200MA"; "TP"; "STD"; "BOLU"; "BOLD"].

(** A label the engine does not write. *)
Definition other_label (k : label) : Prop :=
  forall s, k = Name s -> ~ In s indicator_names.

(** A statement on a frame that leaves the index and every other column
    alone. *)
Definition Keeps {A} (c : Py DataFrame A) : Prop :=
  forall d,
    index (snd (c d)) = index d
    /\ forall k, other_label k ->
         lookup k (columns (snd (c d))) = lookup k (columns d).

(** The frame after the four moving-average assignments. *)
Definition with_averages (c : Series) (d : DataFrame) : DataFrame :=
  setitem "200MA" (rolling_mean 200 c)
    (setitem "100MA" (rolling_mean 100 c)
      (setitem "50MA" (rolling_mean 50 c)
        (setitem "21MA" (rolling_mean 21 c) d))).

(** The names the dropdown offers: [Chart.indicators]. *)
Definition offered : list string :=
  ["21MA"; "50MA"; "100MA"; "200MA"; "Bollinger Bands"].

(** The names of the line traces a selection gives rise to. *)
Fixpoint trace_names (list_ : list string) : list string :=
  match list_ with
  | [] => []
  | i :: rest =>
      if String.eqb i "Bollinger Bands"
      then "Upper Bollinger Band" :: "Lower Bollinger Band" :: trace_names rest
      else i :: trace_names rest
  end.

(** Field [j] of every record of an answer. *)
Definition field (j : nat) (rows : list (list cell)) : column :=
  map (fun r => nth j r Null) rows.

(** Twenty flat days: every record closes at 100. *)
Definition table_flat : DataFrame :=
  candle_table (map Z.of_nat (seq 0 20)) (klines_from 0 (repeat 100%Z 20)).

(** Two records with a seventh field (the closing time of the period). *)
Definition two_days_seven_fields : list (list cell) :=
  [(kline 0 100 ++ [Num 86399999%R])%list;
   (kline 1 101 ++ [Num 172799999%R])%list].

(** One record whose high and close are given as cells, and the one-row
    tables with a close, or a high, that is not a number. *)
Definition record_with (high close : cell) : list cell :=
  [Num 0%R; Txt (Some 1%R); high; Txt (Some 1%R); close; Txt (Some 7%R)].

Definition table_bad_close : DataFrame :=
  candle_table [0%Z] [record_with (Txt (Some 3%R)) (Txt None)].

Definition table_bad_high : DataFrame :=
  candle_table [0%Z] [record_with (Txt None) (Txt (Some 2%R))].

(** The Series the engine stores under each of its column names. *)
Definition derived (name : string) (c h l : Series) : Series :=
  if String.eqb name "21MA" then rolling_mean 21 c
  else if String.eqb name "50MA" then rolling_mean 50 c
  else if String.eqb name "100MA" then rolling_mean 100 c
  else if String.eqb name "200MA" then rolling_mean 200 c
  else if String.eqb name "TP" then typical_price c h l
  else if String.eqb name "STD" then rolling_std 20 (typical_price c h l)
  else if String.eqb name "BOLU" then upper_band (typical_price c h l)
  else lower_band (typical_price c h l).

(** The frame of an answer once its columns are renamed, before the date
    index is set. *)
Definition renamed_table (rows : list (list cell)) : DataFrame :=
  {| index := RangeIndex (length rows);
     columns := columns (candle_table [] rows) |}.

(** An answer whose second record lacks the volume, and one whose second
    record has a string where the opening time should be. *)
Definition second_without_volume : list (list cell) :=
  [kline 0 100; kline_no_volume 1 101].

Definition second_with_text_date : list (list cell) :=
  [kline 0 100;
   [Txt None; Txt (Some 101%R); Txt (Some 102%R); Txt (Some 100%R);
    Txt (Some 101%R); Txt (Some 7%R)]].

(** ** Capital letters, and runtimes *)

(** The capital of an ASCII character, read off the two alphabets: the
    small letter at place [k] of the first has the letter at place [k] of
    the second as its capital; every other character is its own. *)
Definition small_letters : list ascii :=
  list_ascii_of_string "abcdefghijklmnopqrstuvwxyz".

Definition capital_letters : list ascii :=
  list_ascii_of_string "ABCDEFGHIJKLMNOPQRSTUVWXYZ".

Fixpoint paired (c : ascii) (from to : list ascii) : ascii :=
  match from, to with
  | (a :: from')%list, (b :: to')%list =>
      if Ascii.eqb c a then b else paired c from' to'
  | _, _ => c
  end.

Definition capital (c : ascii) : ascii :=
  paired c small_letters capital_letters.

Fixpoint capitals (s : string) : string :=
  match s with
  | EmptyString => EmptyString
  | String c rest => String (capital c) (capitals rest)
  end.

(** Text made of ASCII characters only. *)
Fixpoint ascii_text (s : string) : bool :=
  match s with
  | EmptyString => true
  | String c rest => ((nat_of_ascii c <? 128)%nat && ascii_text rest)%bool
  end.

(** What every Python runtime does on ASCII text: [str.upper] capitalises
    it letter by letter. *)
Definition ascii_runtime (w : World) : Prop :=
  forall v, ascii_text v = true -> str_upper w v = capitals v.

(** A host whose local zone stays [off] microseconds ahead of UTC: for the
    instants of the range in which doubles are exact to the microsecond,
    [int(t.timestamp())] is the whole second of the instant. *)
Definition fixed_offset (off : Z) (w : World) : Prop :=
  forall t, (0 <= t - off < 2 ^ 52)%Z ->
            posix_seconds w t = ((t - off) / 1000000)%Z.

(** ** An answer with a gap *)

(** A record whose high is JSON null. *)
Definition kline_null_high (day close : Z) : list cell :=
  [Num (IZR (day * 86400000));
   Txt (Some (IZR close)); Null;
   Txt (Some (IZR (close - 1))); Txt (Some (IZR close)); Txt (Some 7%R)].

(** Twenty daily records closing at 100, 101, ..., 119; the sixth (day 5)
    has no high. *)
Definition gap_rows : list (list cell) :=
  (klines_from 0 [100; 101; 102; 103; 104]%Z
   ++ kline_null_high 5 105
   :: klines_from 6 [106; 107; 108; 109; 110; 111; 112; 113; 114; 115;
                     116; 117; 118; 119]%Z)%list.

Definition gap_days : list date :=
  map (fun k => Int_part (IZR (k * 86400000) / 86400000))
      [0; 1; 2; 3; 4; 5; 6; 7; 8; 9; 10; 11; 12; 13; 14; 15; 16; 17; 18; 19]%Z.

Definition gap_closes : Series :=
  map (fun z => Some (IZR z))
      [100; 101; 102; 103; 104; 105; 106; 107; 108; 109; 110; 111; 112; 113;
       114; 115; 116; 117; 118; 119]%Z.

Definition gap_highs : Series :=
  (map (fun z => Some (IZR (z + 1))) [100; 101; 102; 103; 104]%Z
   ++ None
   :: map (fun z => Some (IZR (z + 1)))
        [106; 107; 108; 109; 110; 111; 112; 113; 114; 115; 116; 117; 118;
         119]%Z)%list.

Definition gap_lows : Series :=
  map (fun z => Some (IZR (z - 1)))
      [100; 101; 102; 103; 104; 105; 106; 107; 108; 109; 110; 111; 112; 113;
       114; 115; 116; 117; 118; 119]%Z.

(** * Proofs *)

Unset Implicit Arguments.

Local Open Scope nat_scope.
Local Open Scope list_scope.

(** ** Statements *)

Lemma bind_Return {S A B} (c : Py S A) (k : A -> Py S B) s a s' :
  c s = (Return a, s') -> bind c k s = k a s'.
Proof. intros E. unfold bind. now rewrite E. Qed.

Lemma bind_Raise {S A B} (c : Py S A) (k : A -> Py S B) s e s' :
  c s = (Raise e, s') -> bind c k s = (Raise e, s').
Proof. intros E. unfold bind. now rewrite E. Qed.

(** ** Rolling windows *)

Lemma length_rolling_mean n xs : length (rolling_mean n xs) = length xs.
Proof. unfold rolling_mean. now rewrite length_map, length_seq. Qed.

Lemma length_rolling_std n xs : length (rolling_std n xs) = length xs.
Proof. unfold rolling_std. now rewrite length_map, length_seq. Qed.

Lemma nth_error_rolling_mean n xs i :
  i < length xs ->
  nth_error (rolling_mean n xs) i
  = Some (if n <=? length (observed (window n i xs))
          then Some (mean (observed (window n i xs))) else nan).
Proof.
  intros Hi. unfold rolling_mean.
  rewrite nth_error_map, nth_error_seq.
  apply Nat.ltb_lt in Hi. now rewrite Hi.
Qed.

Lemma nth_error_rolling_std n xs i :
  i < length xs ->
  nth_error (rolling_std n xs) i
  = Some (if (n <=? length (observed (window n i xs)))
             && (1 <? length (observed (window n i xs)))
          then Some (std 1 (observed (window n i xs))) else nan).
Proof.
  intros Hi. unfold rolling_std.
  rewrite nth_error_map, nth_error_seq.
  apply Nat.ltb_lt in Hi. now rewrite Hi.
Qed.

Lemma length_observed w : length (observed w) <= length w.
Proof.
  induction w as [|[x|] w IH]; simpl; lia.
Qed.

Lemma length_window n i xs :
  i < length xs -> length (window n i xs) = Nat.min n (i + 1).
Proof.
  intros Hi. unfold window. rewrite length_skipn, length_firstn. lia.
Qed.

Lemma window_rows n i xs :
  n <= i + 1 -> window n i xs = rows_of (i + 1 - n) n xs.
Proof.
  intros Hn. unfold window, rows_of.
  rewrite firstn_skipn_comm. f_equal. f_equal. lia.
Qed.

Lemma rolling_mean_warm_up n xs i :
  i + 1 < n -> i < length xs -> nth_error (rolling_mean n xs) i = Some nan.
Proof.
  intros Hn Hi. rewrite nth_error_rolling_mean by assumption.
  pose proof (length_observed (window n i xs)) as Ho.
  rewrite length_window in Ho by assumption.
  destruct (Nat.leb_spec n (length (observed (window n i xs)))); [lia | reflexivity].
Qed.

Lemma rolling_std_warm_up n xs i :
  i + 1 < n -> i < length xs -> nth_error (rolling_std n xs) i = Some nan.
Proof.
  intros Hn Hi. rewrite nth_error_rolling_std by assumption.
  pose proof (length_observed (window n i xs)) as Ho.
  rewrite length_window in Ho by assumption.
  destruct (Nat.leb_spec n (length (observed (window n i xs)))); [lia | reflexivity].
Qed.

(** A window either has all its values, or fewer observations than rows. *)
Lemma observed_all w :
  length w <= length (observed w) -> w = map Some (observed w).
Proof.
  induction w as [|[x|] w IH]; simpl; intros H.
  - reflexivity.
  - f_equal. apply IH. lia.
  - pose proof (length_observed w). lia.
Qed.

Lemma observed_map_Some xs : observed (map Some xs) = xs.
Proof. induction xs as [|x xs IH]; simpl; congruence. Qed.

Lemma fsum_map_Some xs : fsum (map Some xs) = Some (sum xs).
Proof.
  unfold fsum. induction xs as [|x xs IH]; cbn [map fold_right];
    [reflexivity|].
  now rewrite IH.
Qed.

Lemma fsum_gap w : length (observed w) < length w -> fsum w = nan.
Proof.
  unfold fsum.
  induction w as [|[x|] w IH]; cbn [observed length fold_right]; intros H.
  - lia.
  - rewrite IH by lia. reflexivity.
  - reflexivity.
Qed.

Lemma fsum_all_nan (f : float -> float) w :
  w <> [] -> (forall v, f v = nan) -> fsum (map f w) = nan.
Proof.
  intros Hw Hf. destruct w as [|v w]; [congruence|].
  unfold fsum. cbn [map fold_right]. now rewrite Hf.
Qed.

Lemma arithmetic_mean_observed w :
  arithmetic_mean w
  = if length w <=? length (observed w) then Some (mean (observed w)) else nan.
Proof.
  unfold arithmetic_mean, count.
  destruct (Nat.leb_spec (length w) (length (observed w))) as [H|H].
  - rewrite (observed_all w H) at 1 2.
    rewrite fsum_map_Some, length_map. reflexivity.
  - now rewrite fsum_gap.
Qed.

Lemma present_observed vs : present vs = observed vs.
Proof. induction vs as [|[x|] vs IH]; simpl; congruence. Qed.

Lemma sample_std_observed w :
  sample_std w
  = if length (observed w) <=? 1 then nan else Some (std 1 (observed w)).
Proof.
  unfold sample_std. rewrite present_observed.
  destruct (length (observed w) <=? 1); reflexivity.
Qed.

(** On a full window the rolling aggregates are the naive recomputation. *)
Lemma rolling_mean_naive n xs i :
  n <= i + 1 -> i < length xs ->
  nth_error (rolling_mean n xs) i
  = Some (arithmetic_mean (rows_of (i + 1 - n) n xs)).
Proof.
  intros Hn Hi. rewrite nth_error_rolling_mean by assumption.
  rewrite arithmetic_mean_observed, <- window_rows by assumption.
  rewrite length_window by assumption.
  now replace (Nat.min n (i + 1)) with n by lia.
Qed.

Lemma rolling_std_naive n xs i :
  2 <= n -> n <= i + 1 -> i < length xs ->
  length (present (rows_of (i + 1 - n) n xs)) = n ->
  nth_error (rolling_std n xs) i
  = Some (sample_std (rows_of (i + 1 - n) n xs)).
Proof.
  intros H2 Hn Hi Hfull. rewrite nth_error_rolling_std by assumption.
  rewrite sample_std_observed. rewrite present_observed in Hfull.
  rewrite <- window_rows in * by assumption. rewrite Hfull.
  replace (n <=? n) with true by (symmetry; apply Nat.leb_refl).
  replace (1 <? n) with true by (symmetry; apply Nat.ltb_lt; lia).
  replace (n <=? 1) with false by (symmetry; apply Nat.leb_gt; lia).
  reflexivity.
Qed.

(** With a value missing in the window there are too few observations. *)
Lemma rolling_std_gap n xs i :
  i < length xs ->
  length (present (window n i xs)) < n ->
  nth_error (rolling_std n xs) i = Some nan.
Proof.
  intros Hi Hgap. rewrite nth_error_rolling_std by assumption.
  rewrite present_observed in Hgap.
  replace (n <=? length (observed (window n i xs))) with false
    by (symmetry; apply Nat.leb_gt; lia).
  reflexivity.
Qed.

(** ** Columns of a frame *)

Lemma label_eqb_refl k : label_eqb k k = true.
Proof.
  destruct k; simpl; [apply Nat.eqb_refl | apply String.eqb_refl].
Qed.

Lemma lookup_assign_same k c cols : lookup k (assign k c cols) = Some c.
Proof.
  induction cols as [|[k' c'] cols IH]; simpl.
  - now rewrite label_eqb_refl.
  - destruct (label_eqb k k') eqn:E; simpl; now rewrite E.
Qed.

Lemma lookup_assign_other k k' c cols :
  label_eqb k k' = false -> lookup k (assign k' c cols) = lookup k cols.
Proof.
  intros Hk. induction cols as [|[k2 c2] cols IH]; simpl.
  - now rewrite Hk.
  - destruct (label_eqb k' k2) eqn:E; simpl.
    + destruct (label_eqb k k2) eqn:E2; [|reflexivity].
      exfalso. destruct k, k', k2; simpl in *; try discriminate.
      * apply Nat.eqb_eq in E, E2. subst. rewrite Nat.eqb_refl in Hk. discriminate.
      * apply String.eqb_eq in E, E2. subst. rewrite String.eqb_refl in Hk. discriminate.
    + now rewrite IH.
Qed.

Lemma assign_same k c cols : lookup k cols = Some c -> assign k c cols = cols.
Proof.
  induction cols as [|[k' c'] cols IH]; simpl; [discriminate|].
  destruct (label_eqb k k'); intros H.
  - congruence.
  - now rewrite IH.
Qed.

Lemma lookup_setitem k k' s d :
  lookup (Name k) (columns (setitem k' s d))
  = if String.eqb k k' then Some (map of_float s)
    else lookup (Name k) (columns d).
Proof.
  unfold setitem. cbn [columns].
  destruct (String.eqb k k') eqn:E.
  - apply String.eqb_eq in E. subst. apply lookup_assign_same.
  - now apply lookup_assign_other.
Qed.

Lemma setitem_same k s d :
  lookup (Name k) (columns d) = Some (map of_float s) -> setitem k s d = d.
Proof.
  intros H. unfold setitem. rewrite (assign_same _ _ _ H). now destruct d.
Qed.

Lemma floats_of_floats s : floats_of (map of_float s) = Some s.
Proof.
  induction s as [|[x|] s IH]; simpl; [reflexivity| |]; now rewrite IH.
Qed.

Lemma length_floats_of col s : floats_of col = Some s -> length s = length col.
Proof.
  revert s. induction col as [|c col IH]; simpl; intros s H.
  - now inversion H.
  - destruct (float_of_cell c); [|discriminate].
    destruct (floats_of col) as [xs|]; [|discriminate].
    inversion H. simpl. now rewrite (IH xs).
Qed.

Lemma col_float_ok k d col s :
  lookup (Name k) (columns d) = Some col -> floats_of col = Some s ->
  col_float k d = (Return s, d).
Proof.
  intros Hk Hs. unfold col_float, bind, get, lift, getitem, astype_float.
  now rewrite Hk, Hs.
Qed.

Lemma col_float_stored k s d : col_float k (setitem k s d) = (Return s, setitem k s d).
Proof.
  apply col_float_ok with (col := map of_float s).
  - rewrite lookup_setitem. now rewrite String.eqb_refl.
  - apply floats_of_floats.
Qed.

Lemma col_float_kept k k' s' d s :
  String.eqb k k' = false ->
  col_float k d = (Return s, d) ->
  col_float k (setitem k' s' d) = (Return s, setitem k' s' d).
Proof.
  intros E. unfold col_float, bind, get, lift, getitem.
  rewrite lookup_setitem, E.
  destruct (lookup (Name k) (columns d)) as [col|]; [|discriminate].
  destruct (astype_float col); [|discriminate].
  intros H. now inversion H.
Qed.

(** ** The indicator engine *)

Lemma prices_setitem k s d c h l :
  String.eqb "Close" k = false -> String.eqb "High" k = false ->
  String.eqb "Low" k = false ->
  prices d c h l -> prices (setitem k s d) c h l.
Proof.
  intros Ec Eh El [Hc Hh Hl Lh Ll].
  constructor; try assumption; rewrite lookup_setitem;
    [rewrite Ec | rewrite Eh | rewrite El]; assumption.
Qed.

Lemma close_float d c h l : prices d c h l -> col_float "Close" d = (Return c, d).
Proof. intros [[col [H1 H2]] _ _ _ _]. now apply col_float_ok with col. Qed.

Lemma high_float d c h l : prices d c h l -> col_float "High" d = (Return h, d).
Proof. intros [_ [col [H1 H2]] _ _ _]. now apply col_float_ok with col. Qed.

Lemma low_float d c h l : prices d c h l -> col_float "Low" d = (Return l, d).
Proof. intros [_ _ [col [H1 H2]] _ _]. now apply col_float_ok with col. Qed.

(** The engine returns, and what it leaves is the frame with the eight
    columns attached. *)
Lemma movingAverages_returns d c h l :
  prices d c h l ->
  movingAverages d = (Return tt, with_indicators c h l d).
Proof.
  intros P. unfold movingAverages, with_indicators.
  set (tp := typical_price c h l).
  pose proof (prices_setitem "21MA" (rolling_mean 21 c) _ c h l eq_refl eq_refl eq_refl P) as P1.
  pose proof (prices_setitem "50MA" (rolling_mean 50 c) _ c h l eq_refl eq_refl eq_refl P1) as P2.
  pose proof (prices_setitem "100MA" (rolling_mean 100 c) _ c h l eq_refl eq_refl eq_refl P2) as P3.
  pose proof (prices_setitem "200MA" (rolling_mean 200 c) _ c h l eq_refl eq_refl eq_refl P3) as P4.
  unfold bind at 1. unfold bind at 1. rewrite (close_float _ _ _ _ P). unfold store, modify.
  unfold bind at 1. unfold bind at 1. rewrite (close_float _ _ _ _ P1).
  unfold bind at 1. unfold bind at 1. rewrite (close_float _ _ _ _ P2).
  unfold bind at 1. unfold bind at 1. rewrite (close_float _ _ _ _ P3).
  unfold bind at 1. unfold bind at 1. rewrite (close_float _ _ _ _ P4).
  unfold bind at 1. rewrite (high_float _ _ _ _ P4).
  unfold bind at 1. rewrite (low_float _ _ _ _ P4).
  fold (typical_price c h l). fold tp.
  set (d4 := setitem "200MA" _ _) in *.
  set (d5 := setitem "TP" tp d4).
  set (d6 := setitem "STD" (rolling_std 20 tp) d5).
  set (d7 := setitem "BOLU" (upper_band tp) d6).
  pose proof (col_float_stored "TP" tp d4 : col_float "TP" d5 = _) as T5.
  pose proof (col_float_kept "TP" "STD" (rolling_std 20 tp) _ _ eq_refl T5
              : col_float "TP" d6 = _) as T6.
  pose proof (col_float_stored "STD" (rolling_std 20 tp) d5
              : col_float "STD" d6 = _) as S6.
  pose proof (col_float_kept "TP" "BOLU" (upper_band tp) _ _ eq_refl T6
              : col_float "TP" d7 = _) as T7.
  pose proof (col_float_kept "STD" "BOLU" (upper_band tp) _ _ eq_refl S6
              : col_float "STD" d7 = _) as S7.
  subst d5 d6 d7.
  unfold bind at 1. unfold bind at 1. rewrite T5.
  unfold bind at 1. unfold bind at 1. rewrite T6.
  unfold bind at 1. rewrite S6.
  fold (upper_band tp).
  unfold bind at 1. rewrite T7.
  unfold bind at 1. rewrite S7.
  reflexivity.
Qed.

(** ** Reading the indicator columns back *)

Lemma length_zip_with {A B C} (f : A -> B -> C) a b :
  length (zip_with f a b) = Nat.min (length a) (length b).
Proof.
  revert b. induction a as [|x a IH]; intros [|y b]; simpl; auto.
Qed.

Lemma nth_error_zip_with {A B C} (f : A -> B -> C) a b i x y :
  nth_error a i = Some x -> nth_error b i = Some y ->
  nth_error (zip_with f a b) i = Some (f x y).
Proof.
  revert b i. induction a as [|x' a IH]; intros [|y' b] [|i]; simpl;
    try discriminate.
  - congruence.
  - apply IH.
Qed.

Lemma nth_error_zip_with_inv {A B C} (f : A -> B -> C) a b i z :
  nth_error (zip_with f a b) i = Some z ->
  exists x y, nth_error a i = Some x /\ nth_error b i = Some y /\ z = f x y.
Proof.
  revert b i. induction a as [|x' a IH]; intros [|y' b] [|i]; simpl;
    try discriminate.
  - intros H. inversion H. eauto.
  - apply IH.
Qed.

Lemma length_typical_price c h l :
  length h = length c -> length l = length c ->
  length (typical_price c h l) = length c.
Proof.
  intros Hh Hl. unfold typical_price, series_div, series_add.
  rewrite length_map, !length_zip_with. lia.
Qed.

Lemma nth_error_typical_price c h l i ci hi li :
  nth_error c i = Some ci -> nth_error h i = Some hi ->
  nth_error l i = Some li ->
  nth_error (typical_price c h l) i
  = Some (fdiv (fadd (fadd ci hi) li) (Some 3%R)).
Proof.
  intros Hc Hh Hl. unfold typical_price, series_div, series_add.
  rewrite nth_error_map.
  rewrite (nth_error_zip_with fadd _ _ _ _ _ (nth_error_zip_with fadd _ _ _ _ _ Hc Hh) Hl).
  reflexivity.
Qed.

Lemma read_column k s d :
  lookup (Name k) (columns d) = Some (map of_float s) ->
  col_float k d = (Return s, d).
Proof.
  intros H. apply col_float_ok with (map of_float s); [assumption|].
  apply floats_of_floats.
Qed.

Ltac read_indicator :=
  apply read_column; unfold with_indicators;
  rewrite !lookup_setitem; reflexivity.

Lemma read_MA c h l d name n :
  In (name, n) moving_average_windows ->
  col_float name (with_indicators c h l d)
  = (Return (rolling_mean n c), with_indicators c h l d).
Proof.
  intros [E|[E|[E|[E|[]]]]]; inversion E; subst; read_indicator.
Qed.

Lemma read_TP c h l d :
  col_float "TP" (with_indicators c h l d)
  = (Return (typical_price c h l), with_indicators c h l d).
Proof. read_indicator. Qed.

Lemma read_STD c h l d :
  col_float "STD" (with_indicators c h l d)
  = (Return (rolling_std 20 (typical_price c h l)), with_indicators c h l d).
Proof. read_indicator. Qed.

Lemma read_BOLU c h l d :
  col_float "BOLU" (with_indicators c h l d)
  = (Return (upper_band (typical_price c h l)), with_indicators c h l d).
Proof. read_indicator. Qed.

Lemma read_BOLD c h l d :
  col_float "BOLD" (with_indicators c h l d)
  = (Return (lower_band (typical_price c h l)), with_indicators c h l d).
Proof. read_indicator. Qed.

Lemma length_upper_band tp : length (upper_band tp) = length tp.
Proof.
  unfold upper_band, series_add, scalar_mul.
  rewrite length_zip_with, length_map, length_rolling_mean, length_rolling_std.
  lia.
Qed.

Lemma length_lower_band tp : length (lower_band tp) = length tp.
Proof.
  unfold lower_band, series_sub, scalar_mul.
  rewrite length_zip_with, length_map, length_rolling_mean, length_rolling_std.
  lia.
Qed.

Lemma nth_error_upper_band tp i m s :
  nth_error (rolling_mean 20 tp) i = Some m ->
  nth_error (rolling_std 20 tp) i = Some s ->
  nth_error (upper_band tp) i = Some (fadd m (fmul (Some 2%R) s)).
Proof.
  intros Hm Hs. unfold upper_band, series_add, scalar_mul.
  apply nth_error_zip_with; [assumption|].
  rewrite nth_error_map, Hs. reflexivity.
Qed.

Lemma nth_error_lower_band tp i m s :
  nth_error (rolling_mean 20 tp) i = Some m ->
  nth_error (rolling_std 20 tp) i = Some s ->
  nth_error (lower_band tp) i = Some (fsub m (fmul (Some 2%R) s)).
Proof.
  intros Hm Hs. unfold lower_band, series_sub, scalar_mul.
  apply nth_error_zip_with; [assumption|].
  rewrite nth_error_map, Hs. reflexivity.
Qed.

(** A column whose rows are all missing. *)
Lemma all_missing (s : Series) :
  (forall i, i < length s -> nth_error s i = Some nan) ->
  Forall (fun x => x = nan) s.
Proof.
  induction s as [|x s IH]; intros H; constructor.
  - specialize (H 0 (Nat.lt_0_succ _)). simpl in H. congruence.
  - apply IH. intros i Hi. apply (H (S i)). simpl. lia.
Qed.

(** ** The indicator columns *)

Lemma warm_up_column (s : Series) n len :
  length s = len ->
  (forall i, i + 1 < n -> i < len -> nth_error s i = Some nan) ->
  (forall i, i < n - 1 -> i < length s -> nth_error s i = Some nan)
  /\ (len < n -> Forall (fun x => x = nan) s).
Proof.
  intros L H. split.
  - intros i Hi Hs. apply H; lia.
  - intros Hn. apply all_missing. intros i Hi. apply H; lia.
Qed.

Lemma upper_band_warm_up tp i :
  i + 1 < 20 -> i < length tp -> nth_error (upper_band tp) i = Some nan.
Proof.
  intros Hn Hi.
  rewrite (nth_error_upper_band tp i _ _ (rolling_mean_warm_up 20 tp i Hn Hi)
             (rolling_std_warm_up 20 tp i Hn Hi)).
  reflexivity.
Qed.

Lemma lower_band_warm_up tp i :
  i + 1 < 20 -> i < length tp -> nth_error (lower_band tp) i = Some nan.
Proof.
  intros Hn Hi.
  rewrite (nth_error_lower_band tp i _ _ (rolling_mean_warm_up 20 tp i Hn Hi)
             (rolling_std_warm_up 20 tp i Hn Hi)).
  reflexivity.
Qed.

(** C2 -- warm-up.  On every candle table the engine returns, and in each
    windowed column (21MA, 50MA, 100MA, 200MA with windows 21, 50, 100, 200;
    STD, BOLU, BOLD with window 20) the rows 0 to n-2 hold the missing marker;
    a table with fewer than n rows has the whole column missing. *)
Theorem warm_up_is_missing d c h l :
  prices d c h l ->
  exists d',
    movingAverages d = (Return tt, d')
    /\ forall name n,
         In (name, n) (moving_average_windows ++ bollinger_windows) ->
         exists s,
           col_float name d' = (Return s, d')
           /\ length s = length c
           /\ (forall i, i < n - 1 -> i < length s -> nth_error s i = Some nan)
           /\ (length c < n -> Forall (fun x => x = nan) s).
Proof.
  intros P. exists (with_indicators c h l d).
  split; [now apply movingAverages_returns|].
  pose proof (length_typical_price c h l (prices_high_rows P) (prices_low_rows P))
    as Ltp.
  intros name n Hin. apply in_app_or in Hin. destruct Hin as [Hma|Hbb].
  - exists (rolling_mean n c). split; [now apply read_MA|].
    split; [apply length_rolling_mean|].
    apply warm_up_column; [apply length_rolling_mean|].
    intros i Hi Hc. now apply rolling_mean_warm_up.
  - destruct Hbb as [E|[E|[E|[]]]]; inversion E; subst name n.
    + exists (rolling_std 20 (typical_price c h l)).
      split; [apply read_STD|].
      split; [now rewrite length_rolling_std|].
      apply warm_up_column; [now rewrite length_rolling_std|].
      intros i Hi Hc. apply rolling_std_warm_up; [assumption | lia].
    + exists (upper_band (typical_price c h l)).
      split; [apply read_BOLU|].
      split; [now rewrite length_upper_band|].
      apply warm_up_column; [now rewrite length_upper_band|].
      intros i Hi Hc. apply upper_band_warm_up; [assumption | lia].
    + exists (lower_band (typical_price c h l)).
      split; [apply read_BOLD|].
      split; [now rewrite length_lower_band|].
      apply warm_up_column; [now rewrite length_lower_band|].
      intros i Hi Hc. apply lower_band_warm_up; [assumption | lia].
Qed.

Lemma prices_table_25 :
  prices table_25
    (map (fun z => Some (IZR z)) closes_100_124)
    (map (fun z => Some (IZR (z + 1))) closes_100_124)
    (map (fun z => Some (IZR (z - 1))) closes_100_124).
Proof.
  constructor; try reflexivity; eexists; split; reflexivity.
Defined.

(** The 25-row table has no 50-day average anywhere, and no 21-day average
    on its first twenty rows. *)
Lemma warm_up_is_missing_witness :
  exists d',
    movingAverages table_25 = (Return tt, d')
    /\ (exists s, col_float "50MA" d' = (Return s, d')
                  /\ Forall (fun x => x = nan) s)
    /\ (exists s, col_float "21MA" d' = (Return s, d')
                  /\ nth_error s 19 = Some nan).
Proof.
  destruct (warm_up_is_missing _ _ _ _ prices_table_25) as [d' [Hrun Hcols]].
  exists d'. split; [exact Hrun|]. split.
  - destruct (Hcols "50MA" 50) as [s [Hs [Hl [_ Hall]]]].
    + simpl. auto.
    + exists s. split; [exact Hs|]. apply Hall. simpl. lia.
  - destruct (Hcols "21MA" 21) as [s [Hs [Hl [Hwarm _]]]].
    + simpl. auto.
    + exists s. split; [exact Hs|]. apply Hwarm; [lia|].
      rewrite Hl. simpl. lia.
Defined.

(** C3 -- moving averages.  On every candle table the engine returns, and at
    every row i >= n-1 of an n-window moving-average column the value is the
    arithmetic mean of the closes of rows i-n+1 to i.  For 25 rows closing at
    100..124, 21MA is 110 at row 20 and missing on rows 0 to 19. *)
Theorem moving_average_is_mean d c h l :
  prices d c h l ->
  exists d',
    movingAverages d = (Return tt, d')
    /\ (forall name n,
          In (name, n) moving_average_windows ->
          exists s,
            col_float name d' = (Return s, d')
            /\ forall i, n - 1 <= i -> i < length c ->
                 nth_error s i
                 = Some (arithmetic_mean (rows_of (i + 1 - n) n c)))
    /\ (c = map (fun z => Some (IZR z)) closes_100_124 ->
        exists s,
          col_float "21MA" d' = (Return s, d')
          /\ nth_error s 20 = Some (Some 110%R)
          /\ forall i, i < 20 -> nth_error s i = Some nan).
Proof.
  intros P. exists (with_indicators c h l d).
  split; [now apply movingAverages_returns|]. split.
  - intros name n Hin. exists (rolling_mean n c).
    split; [now apply read_MA|].
    intros i Hn Hi. apply rolling_mean_naive; [|assumption].
    destruct Hin as [E|[E|[E|[E|[]]]]]; inversion E; subst; lia.
  - intros ->. exists (rolling_mean 21 (map (fun z => Some (IZR z)) closes_100_124)).
    split; [apply read_MA; simpl; auto|]. split.
    + rewrite rolling_mean_naive; [| lia | simpl; lia].
      cbv [rows_of closes_100_124 map skipn firstn arithmetic_mean fsum count
           fold_right fadd fdiv lift2 length Nat.add Nat.sub].
      do 2 f_equal. rewrite INR_IZR_INZ.
      cbn [Z.of_nat Pos.of_succ_nat Pos.succ]. lra.
    + intros i Hi. apply rolling_mean_warm_up; [lia|].
      simpl. lia.
Qed.

(** On the 25-row table: the naive mean at row 24, and the scenario. *)
Lemma moving_average_is_mean_witness :
  exists d' s,
    movingAverages table_25 = (Return tt, d')
    /\ col_float "21MA" d' = (Return s, d')
    /\ nth_error s 20 = Some (Some 110%R)
    /\ nth_error s 0 = Some nan.
Proof.
  destruct (moving_average_is_mean _ _ _ _ prices_table_25) as [d' [Hrun [_ Hscen]]].
  destruct (Hscen eq_refl) as [s [Hs [H20 Hwarm]]].
  exists d', s. repeat split; try assumption.
  apply Hwarm. lia.
Defined.

Lemma rolling_std_nonneg n xs i s :
  nth_error (rolling_std n xs) i = Some (Some s) -> (0 <= s)%R.
Proof.
  intros H.
  assert (Hi : i < length xs).
  { rewrite <- (length_rolling_std n xs). apply nth_error_Some. congruence. }
  rewrite nth_error_rolling_std in H by assumption.
  destruct ((n <=? length (observed (window n i xs)))
            && (1 <? length (observed (window n i xs)))); [|discriminate].
  inversion H. unfold std. apply sqrt_pos.
Qed.

Lemma bands_around_mean tp i u lo s :
  nth_error (upper_band tp) i = Some (Some u) ->
  nth_error (lower_band tp) i = Some (Some lo) ->
  nth_error (rolling_std 20 tp) i = Some (Some s) ->
  exists m,
    nth_error (rolling_mean 20 tp) i = Some (Some m)
    /\ (lo <= m <= u)%R /\ (u - lo = 4 * s)%R.
Proof.
  intros Hu Hl Hs.
  pose proof (rolling_std_nonneg 20 tp i s Hs) as Hpos.
  unfold upper_band, series_add in Hu. unfold lower_band, series_sub in Hl.
  apply nth_error_zip_with_inv in Hu. destruct Hu as [m [x [Hm [Hx Eu]]]].
  apply nth_error_zip_with_inv in Hl. destruct Hl as [m' [x' [Hm' [Hx' El]]]].
  unfold scalar_mul in Hx, Hx'. rewrite nth_error_map, Hs in Hx, Hx'.
  simpl in Hx, Hx'. inversion Hx. inversion Hx'. subst x x'.
  rewrite Hm in Hm'. inversion Hm'. subst m'.
  destruct m as [m|]; [|discriminate].
  simpl in Eu, El. inversion Eu. inversion El.
  exists m. split; [exact Hm|]. split; lra.
Qed.

Lemma typical_price_row c h l i hi li ci :
  nth_error h i = Some hi -> nth_error l i = Some li ->
  nth_error c i = Some ci ->
  nth_error (typical_price c h l) i
  = Some (fdiv (fadd (fadd hi li) ci) (Some 3%R)).
Proof.
  intros Hh Hl Hc.
  rewrite (nth_error_typical_price c h l i ci hi li Hc Hh Hl).
  destruct hi as [x|], li as [y|], ci as [z|]; simpl; try reflexivity.
  do 2 f_equal. lra.
Qed.

Lemma rolling_mean_value n xs i m :
  0 < n ->
  nth_error (rolling_mean n xs) i = Some (Some m) ->
  n <= i + 1 /\ arithmetic_mean (rows_of (i + 1 - n) n xs) = Some m.
Proof.
  intros Hn Hm.
  assert (Hi : i < length xs).
  { rewrite <- (length_rolling_mean n xs). apply nth_error_Some. congruence. }
  destruct (Nat.lt_ge_cases (i + 1) n) as [Hw|Hw].
  - rewrite (rolling_mean_warm_up n xs i Hw Hi) in Hm. discriminate Hm.
  - split; [exact Hw|].
    rewrite (rolling_mean_naive n xs i Hw Hi) in Hm. now inversion Hm.
Qed.

(** C4 -- Bollinger bands.  On every candle table the engine returns; TP is
    (high + low + close) / 3 row by row, and at every row i where BOLU, BOLD
    and STD all hold a value, the arithmetic mean of TP over rows i-19 to i
    is a value m with BOLU >= m >= BOLD, and BOLU - BOLD = 4 * STD (exactly,
    in real arithmetic). *)
Theorem bollinger_bands_bracket_mean d c h l :
  prices d c h l ->
  exists d' tp sd bu bd,
    movingAverages d = (Return tt, d')
    /\ col_float "TP" d' = (Return tp, d')
    /\ col_float "STD" d' = (Return sd, d')
    /\ col_float "BOLU" d' = (Return bu, d')
    /\ col_float "BOLD" d' = (Return bd, d')
    /\ (forall j hj lj cj,
          nth_error h j = Some hj -> nth_error l j = Some lj ->
          nth_error c j = Some cj ->
          nth_error tp j = Some (fdiv (fadd (fadd hj lj) cj) (Some 3%R)))
    /\ forall i u lo s,
         nth_error bu i = Some (Some u) ->
         nth_error bd i = Some (Some lo) ->
         nth_error sd i = Some (Some s) ->
         19 <= i
         /\ exists m,
              arithmetic_mean (rows_of (i - 19) 20 tp) = Some m
              /\ (lo <= m <= u)%R /\ (u - lo = 4 * s)%R.
Proof.
  intros P.
  exists (with_indicators c h l d), (typical_price c h l),
    (rolling_std 20 (typical_price c h l)),
    (upper_band (typical_price c h l)), (lower_band (typical_price c h l)).
  split; [now apply movingAverages_returns|].
  split; [apply read_TP|]. split; [apply read_STD|].
  split; [apply read_BOLU|]. split; [apply read_BOLD|].
  split; [intros j hj lj cj; apply typical_price_row|].
  intros i u lo s Hu Hl Hs.
  destruct (bands_around_mean _ i u lo s Hu Hl Hs) as [m [Hm [Hle Heq]]].
  destruct (rolling_mean_value 20 _ i m ltac:(lia) Hm) as [H19 Hmean].
  split; [lia|]. exists m.
  replace (i - 19) with (i + 1 - 20) by lia. repeat split; tauto.
Qed.

Lemma with_indicators_again c h l d :
  with_indicators c h l (with_indicators c h l d) = with_indicators c h l d.
Proof.
  set (d1 := with_indicators c h l d).
  assert (H1 : lookup (Name "21MA") (columns d1)
               = Some (map of_float (rolling_mean 21 c))).
  { unfold d1, with_indicators. rewrite !lookup_setitem. reflexivity. }
  assert (H2 : lookup (Name "50MA") (columns d1)
               = Some (map of_float (rolling_mean 50 c))).
  { unfold d1, with_indicators. rewrite !lookup_setitem. reflexivity. }
  assert (H3 : lookup (Name "100MA") (columns d1)
               = Some (map of_float (rolling_mean 100 c))).
  { unfold d1, with_indicators. rewrite !lookup_setitem. reflexivity. }
  assert (H4 : lookup (Name "200MA") (columns d1)
               = Some (map of_float (rolling_mean 200 c))).
  { unfold d1, with_indicators. rewrite !lookup_setitem. reflexivity. }
  assert (H5 : lookup (Name "TP") (columns d1)
               = Some (map of_float (typical_price c h l))).
  { unfold d1, with_indicators. rewrite !lookup_setitem. reflexivity. }
  assert (H6 : lookup (Name "STD") (columns d1)
               = Some (map of_float (rolling_std 20 (typical_price c h l)))).
  { unfold d1, with_indicators. rewrite !lookup_setitem. reflexivity. }
  assert (H7 : lookup (Name "BOLU") (columns d1)
               = Some (map of_float (upper_band (typical_price c h l)))).
  { unfold d1, with_indicators. rewrite !lookup_setitem. reflexivity. }
  assert (H8 : lookup (Name "BOLD") (columns d1)
               = Some (map of_float (lower_band (typical_price c h l)))).
  { unfold d1, with_indicators. rewrite !lookup_setitem. reflexivity. }
  clearbody d1. unfold with_indicators.
  rewrite (setitem_same "21MA" _ d1 H1), (setitem_same "50MA" _ d1 H2),
    (setitem_same "100MA" _ d1 H3), (setitem_same "200MA" _ d1 H4),
    (setitem_same "TP" _ d1 H5), (setitem_same "STD" _ d1 H6),
    (setitem_same "BOLU" _ d1 H7), (setitem_same "BOLD" _ d1 H8).
  reflexivity.
Qed.

Lemma prices_with_indicators d c h l :
  prices d c h l -> prices (with_indicators c h l d) c h l.
Proof.
  intros P. unfold with_indicators.
  repeat (apply prices_setitem; [reflexivity | reflexivity | reflexivity |]).
  exact P.
Qed.

(** C9 -- idempotence.  On every candle table the engine returns, and
    running it again on the table it left leaves that table as it is: all
    eight indicator columns (and every other column) are identical. *)
Theorem movingAverages_idempotent d c h l :
  prices d c h l ->
  exists d1,
    movingAverages d = (Return tt, d1)
    /\ movingAverages d1 = (Return tt, d1).
Proof.
  intros P. exists (with_indicators c h l d).
  split; [now apply movingAverages_returns|].
  rewrite (movingAverages_returns _ c h l (prices_with_indicators d c h l P)).
  now rewrite with_indicators_again.
Qed.

(** On the 25-row table at row 19: the mean of TP over rows 0 to 19 is
    109.5, and the bands lie around it. *)
Lemma mean_of_first_twenty :
  arithmetic_mean
    (rows_of 0 20
       (typical_price
          (map (fun z => Some (IZR z)) closes_100_124)
          (map (fun z => Some (IZR (z + 1))) closes_100_124)
          (map (fun z => Some (IZR (z - 1))) closes_100_124)))
  = Some (219 / 2)%R.
Proof.
  cbv [rows_of closes_100_124 map skipn firstn arithmetic_mean fsum count
       fold_right fadd fdiv lift2 length Nat.add Nat.sub typical_price
       series_div series_add zip_with Z.add Z.sub Pos.add Pos.succ Z.pos_sub
       Pos.pred_double Z.succ_double Z.pred_double Z.double Z.opp
       Pos.add_carry].
  f_equal. rewrite INR_IZR_INZ.
  cbn [Z.of_nat Pos.of_succ_nat Pos.succ]. lra.
Qed.

Lemma first_twenty_typical_prices :
  rows_of 0 20
    (typical_price
       (map (fun z => Some (IZR z)) closes_100_124)
       (map (fun z => Some (IZR (z + 1))) closes_100_124)
       (map (fun z => Some (IZR (z - 1))) closes_100_124))
  = map (fun z => Some (IZR z))
      [100; 101; 102; 103; 104; 105; 106; 107; 108; 109; 110; 111; 112; 113;
       114; 115; 116; 117; 118; 119]%Z.
Proof.
  cbv [rows_of closes_100_124 map skipn firstn fadd fdiv lift2 typical_price
       series_div series_add zip_with Z.add Z.sub Pos.add Pos.succ Z.pos_sub
       Pos.pred_double Z.succ_double Z.pred_double Z.double Z.opp
       Pos.add_carry].
  repeat (apply f_equal2; [apply f_equal; lra|]). reflexivity.
Qed.

Lemma deviation_of_first_twenty :
  sample_std
    (map (fun z => Some (IZR z))
       [100; 101; 102; 103; 104; 105; 106; 107; 108; 109; 110; 111; 112; 113;
        114; 115; 116; 117; 118; 119]%Z)
  = Some (sqrt 35).
Proof.
  unfold sample_std.
  cbv [map present length Nat.leb total fold_right].
  do 2 f_equal. rewrite INR_IZR_INZ.
  cbn [Z.of_nat Pos.of_succ_nat Pos.succ]. lra.
Qed.

Lemma bollinger_bands_bracket_mean_witness :
  exists d' tp bu bd sd,
    movingAverages table_25 = (Return tt, d')
    /\ col_float "TP" d' = (Return tp, d')
    /\ col_float "BOLU" d' = (Return bu, d')
    /\ col_float "BOLD" d' = (Return bd, d')
    /\ col_float "STD" d' = (Return sd, d')
    /\ nth_error tp 19 = Some (Some ((120 + 118 + 119) / 3)%R)
    /\ nth_error bu 19 = Some (Some (219 / 2 + 2 * sqrt 35)%R)
    /\ nth_error bd 19 = Some (Some (219 / 2 - 2 * sqrt 35)%R)
    /\ nth_error sd 19 = Some (Some (sqrt 35))
    /\ arithmetic_mean (rows_of 0 20 tp) = Some (219 / 2)%R
    /\ (219 / 2 - 2 * sqrt 35 <= 219 / 2 <= 219 / 2 + 2 * sqrt 35)%R
    /\ (219 / 2 + 2 * sqrt 35 - (219 / 2 - 2 * sqrt 35) = 4 * sqrt 35)%R.
Proof.
  destruct (bollinger_bands_bracket_mean _ _ _ _ prices_table_25)
    as [d' [tp [sd [bu [bd [Hrun [Htp [Hsd [Hbu [Hbd [Hrow Hrows]]]]]]]]]]].
  pose proof Hrun as E.
  rewrite (movingAverages_returns _ _ _ _ prices_table_25) in E.
  inversion E as [Ed]. clear E.
  pose proof Htp as Et. rewrite <- Ed, read_TP in Et. inversion Et as [Etp].
  pose proof Hsd as Es. rewrite <- Ed, read_STD in Es. inversion Es as [Esd].
  pose proof Hbu as Eu. rewrite <- Ed, read_BOLU in Eu. inversion Eu as [Ebu].
  pose proof Hbd as El. rewrite <- Ed, read_BOLD in El. inversion El as [Ebd].
  assert (Hmean : arithmetic_mean (rows_of 0 20 tp) = Some (219 / 2)%R)
    by (rewrite <- Etp; exact mean_of_first_twenty).
  assert (F : rows_of 0 20 tp
              = map (fun z => Some (IZR z))
                  [100; 101; 102; 103; 104; 105; 106; 107; 108; 109; 110;
                   111; 112; 113; 114; 115; 116; 117; 118; 119]%Z)
    by (rewrite <- Etp; exact first_twenty_typical_prices).
  assert (Ltp : length tp = 25) by (rewrite <- Etp; reflexivity).
  assert (Hm : nth_error (rolling_mean 20 tp) 19 = Some (Some (219 / 2)%R)).
  { rewrite rolling_mean_naive by lia. change (19 + 1 - 20) with 0.
    now rewrite Hmean. }
  assert (Hs' : nth_error (rolling_std 20 tp) 19 = Some (Some (sqrt 35))).
  { rewrite rolling_std_naive; try lia; change (19 + 1 - 20) with 0;
      rewrite F; [now rewrite deviation_of_first_twenty | reflexivity]. }
  assert (Hs : nth_error sd 19 = Some (Some (sqrt 35))).
  { rewrite <- Esd, Etp. exact Hs'. }
  assert (Hu : nth_error bu 19 = Some (Some (219 / 2 + 2 * sqrt 35)%R)).
  { rewrite <- Ebu, Etp. now rewrite (nth_error_upper_band tp 19 _ _ Hm Hs'). }
  assert (Hl : nth_error bd 19 = Some (Some (219 / 2 - 2 * sqrt 35)%R)).
  { rewrite <- Ebd, Etp. now rewrite (nth_error_lower_band tp 19 _ _ Hm Hs'). }
  destruct (Hrows 19 _ _ _ Hu Hl Hs) as [_ [m [Hmm [Hle Heq]]]].
  change (19 - 19) with 0 in Hmm. rewrite Hmean in Hmm. inversion Hmm as [Em].
  rewrite <- Em in Hle.
  exists d', tp, bu, bd, sd.
  repeat split; try assumption; try apply Hle.
  apply (Hrow 19 (Some 120%R) (Some 118%R) (Some 119%R)); reflexivity.
Defined.

Lemma movingAverages_idempotent_witness :
  exists d1,
    movingAverages table_25 = (Return tt, d1)
    /\ movingAverages d1 = (Return tt, d1).
Proof.
  exact (movingAverages_idempotent _ _ _ _ prices_table_25).
Defined.

(** ** [fillDataFrame], step by step *)

Lemma fillDataFrame_unfold sym w :
  fillDataFrame sym w
  = match next_reply w with
    | Unreachable => (Raise ConnectionError, requested sym w)
    | Answer text =>
        match build_table text (requested sym w) with
        | (Raise ValueError, w') => set_symbol (symbol (Chart w)) w'
        | r => r
        end
    end.
Proof.
  unfold fillDataFrame, try_except_ValueError, next_reply.
  unfold bind at 1. unfold self at 1. unfold bind at 1. unfold get, ret.
  unfold bind at 1. unfold set_symbol at 1. unfold modify.
  unfold bind at 1. unfold self at 1. unfold bind at 1. unfold get, ret.
  unfold bind at 1. unfold set_req_params at 1. unfold modify.
  unfold bind at 1. unfold requests_get.
  cbn [Chart with_Chart sent net symbol url interval startTime endTime limit
       clock reads fromtimestamp indicators req_params df].
  destruct (net w (length (sent w))) as [|text]; reflexivity.
Qed.

Lemma build_table_not_json w : build_table NotJson w = (Raise ValueError, w).
Proof. reflexivity. Qed.

Lemma build_table_error_object code msg w :
  build_table (Doc (JObject code msg)) w = (Raise ValueError, w).
Proof. reflexivity. Qed.

Lemma firstn_seq_min n a len : firstn n (seq a len) = seq a (Nat.min n len).
Proof.
  revert a len. induction n as [|n IH]; intros a [|len]; simpl; try reflexivity.
  now rewrite IH.
Qed.

Lemma columns_of_records rows :
  6 <= width rows ->
  firstn 6 (columns (pd_DataFrame rows))
  = map (fun j => (Pos j, map (fun r => nth j r Null) rows)) (seq 0 6).
Proof.
  intros H. unfold pd_DataFrame. cbn [columns].
  rewrite firstn_map, firstn_seq_min. now replace (Nat.min 6 (width rows)) with 6 by lia.
Qed.

Lemma length_columns_of_records rows :
  length (firstn 6 (columns (pd_DataFrame rows))) = Nat.min 6 (width rows).
Proof.
  unfold pd_DataFrame. cbn [columns].
  now rewrite length_firstn, length_map, length_seq.
Qed.

(** Fewer than six fields in every record: the raw frame is stored in
    [self.df] before the renaming of its columns raises. *)
Lemma build_table_short rows w :
  width rows < 6 ->
  build_table (Doc (JArray rows)) w
  = (Raise ValueError, with_df (Some (iloc_0_6 (pd_DataFrame rows))) w).
Proof.
  intros H. unfold build_table.
  cbv [bind lift json_loads DataFrame_of_json set_df modify the_df self get ret
       on_df put raise].
  cbn [Chart with_Chart df fst snd].
  unfold set_columns.
  replace (length column_names =? length (columns (iloc_0_6 (pd_DataFrame rows))))
    with false.
  - reflexivity.
  - symmetry. apply Nat.eqb_neq. unfold iloc_0_6. cbn [columns].
    rewrite length_columns_of_records.
    change (length column_names) with 6. lia.
Qed.

Lemma set_df_with_df d w : set_df d w = (Return tt, with_df (Some d) w).
Proof. reflexivity. Qed.

Lemma the_df_with_df d w :
  the_df (with_df (Some d) w) = (Return d, with_df (Some d) w).
Proof. reflexivity. Qed.

Lemma with_df_with_df t t' w : with_df t (with_df t' w) = with_df t w.
Proof. reflexivity. Qed.

Lemma on_df_with_df {A} (c : Py DataFrame A) d w :
  on_df c (with_df (Some d) w)
  = (fst (c d), with_df (Some (snd (c d))) w).
Proof.
  unfold on_df. unfold bind at 1. rewrite the_df_with_df.
  destruct (c d) as [[a|e] d']; reflexivity.
Qed.

Lemma Date_of_candle_table rows days :
  6 <= width rows ->
  getitem "Date" (candle_table days rows)
  = Return (map (fun r => nth 0 r Null) rows).
Proof.
  intros W. unfold getitem, candle_table. cbn [columns].
  rewrite (columns_of_records rows W). reflexivity.
Qed.

Lemma rename_records rows :
  6 <= width rows ->
  set_columns column_names (iloc_0_6 (pd_DataFrame rows))
  = Return {| index := RangeIndex (length rows);
              columns := columns (candle_table [] rows) |}.
Proof.
  intros W. unfold set_columns.
  replace (length column_names =? length (columns (iloc_0_6 (pd_DataFrame rows))))
    with true; [reflexivity|].
  symmetry. apply Nat.eqb_eq. unfold iloc_0_6. cbn [columns].
  rewrite length_columns_of_records.
  change (length column_names) with 6. lia.
Qed.

Lemma rename_statement rows :
  6 <= width rows ->
  (d <- get ;; d' <- lift (set_columns column_names d) ;; put d')%py
    (iloc_0_6 (pd_DataFrame rows))
  = (Return tt, {| index := RangeIndex (length rows);
                   columns := columns (candle_table [] rows) |}).
Proof.
  intros W. unfold bind, get, lift, put. now rewrite (rename_records rows W).
Qed.

(** A good answer: the candle table is built, the indicators are attached. *)
Lemma build_table_accepted rows days c h l w :
  6 <= width rows ->
  each (fromtimestamp w) (map (fun r => nth 0 r Null) rows) = Return days ->
  prices (candle_table days rows) c h l ->
  build_table (Doc (JArray rows)) w
  = (Return tt,
     with_df (Some (with_indicators c h l (candle_table days rows))) w).
Proof.
  intros W D P. unfold build_table.
  unfold bind at 1. unfold lift at 1. cbn [json_loads].
  unfold bind at 1. unfold lift at 1. cbn [DataFrame_of_json].
  unfold bind at 1. rewrite set_df_with_df.
  unfold bind at 1. unfold bind at 1. rewrite the_df_with_df.
  rewrite set_df_with_df, with_df_with_df.
  unfold bind at 1. rewrite on_df_with_df, (rename_statement rows W).
  cbn [fst snd].
  unfold bind at 1. unfold bind at 1. unfold get at 1.
  unfold bind at 1. rewrite the_df_with_df.
  unfold bind at 1. unfold lift at 1.
  change (getitem "Date" _) with (getitem "Date" (candle_table days rows)).
  rewrite (Date_of_candle_table rows days W).
  unfold bind at 1. unfold lift at 1.
  change (fromtimestamp (with_df _ w)) with (fromtimestamp w).
  rewrite D. rewrite set_df_with_df, with_df_with_df.
  change {| index := DateIndex days; columns := _ |}
    with (candle_table days rows).
  rewrite on_df_with_df, (movingAverages_returns _ c h l P).
  reflexivity.
Qed.

(** Whatever the answer, building the table touches nothing but [self.df]. *)
Lemma build_table_world text w :
  exists o, build_table text w = (o, w)
            \/ exists t, build_table text w = (o, with_df t w).
Proof.
  destruct text as [|[code msg|rows]];
    [exists (Raise ValueError); left; reflexivity ..|].
  remember (build_table (Doc (JArray rows)) w) as r eqn:E.
  unfold build_table in E.
  unfold bind at 1 in E. unfold lift at 1 in E. cbn [json_loads] in E.
  unfold bind at 1 in E. unfold lift at 1 in E. cbn [DataFrame_of_json] in E.
  unfold bind at 1 in E. rewrite set_df_with_df in E.
  unfold bind at 1 in E. unfold bind at 1 in E. rewrite the_df_with_df in E.
  rewrite set_df_with_df, with_df_with_df in E.
  unfold bind at 1 in E. rewrite on_df_with_df in E.
  destruct ((d <- get ;; d' <- lift (set_columns column_names d) ;; put d')%py
              (iloc_0_6 (pd_DataFrame rows))) as [[u|e] d1];
    cbn [fst snd] in E; [|subst r; eexists; right; eexists; reflexivity].
  unfold bind at 1 in E. unfold bind at 1 in E. unfold get at 1 in E.
  unfold bind at 1 in E. rewrite the_df_with_df in E.
  unfold bind at 1 in E. unfold lift at 1 in E.
  destruct (getitem "Date" d1) as [col|e];
    [|subst r; eexists; right; eexists; reflexivity].
  unfold bind at 1 in E. unfold lift at 1 in E.
  destruct (each (fromtimestamp (with_df (Some d1) w)) col) as [days|e];
    [|subst r; eexists; right; eexists; reflexivity].
  rewrite set_df_with_df, with_df_with_df, on_df_with_df in E.
  subst r; eexists; right; eexists; reflexivity.
Qed.

Lemma build_table_frame text w :
  sent (snd (build_table text w)) = sent w
  /\ backdrop (snd (build_table text w)) = backdrop w
  /\ symbol (Chart (snd (build_table text w))) = symbol (Chart w).
Proof.
  destruct (build_table_world text w) as [o [E|[t E]]]; rewrite E;
    repeat split; reflexivity.
Qed.

Lemma fillDataFrame_frame sym w :
  sent (snd (fillDataFrame sym w)) = sent w ++ [request_for sym w]
  /\ backdrop (snd (fillDataFrame sym w)) = backdrop w.
Proof.
  rewrite fillDataFrame_unfold.
  destruct (next_reply w) as [|text]; [split; reflexivity|].
  destruct (build_table_frame text (requested sym w)) as [Hs [Hb _]].
  destruct (build_table text (requested sym w)) as [[u|e] w'];
    cbn [fst snd] in *; [now split|].
  destruct e; cbn [fst snd]; now split.
Qed.

(** *** The four kinds of answer *)

Lemma fillDataFrame_unreachable sym w :
  next_reply w = Unreachable ->
  fillDataFrame sym w = (Raise ConnectionError, requested sym w).
Proof. intros E. rewrite fillDataFrame_unfold, E. reflexivity. Qed.

Lemma fillDataFrame_not_json sym w :
  next_reply w = Answer NotJson ->
  fillDataFrame sym w
  = (Return tt, snd (set_symbol (symbol (Chart w)) (requested sym w))).
Proof. intros E. rewrite fillDataFrame_unfold, E. reflexivity. Qed.

Lemma fillDataFrame_error_object sym w code msg :
  next_reply w = Answer (Doc (JObject code msg)) ->
  fillDataFrame sym w
  = (Return tt, snd (set_symbol (symbol (Chart w)) (requested sym w))).
Proof. intros E. rewrite fillDataFrame_unfold, E. reflexivity. Qed.

Lemma fillDataFrame_short sym w rows :
  next_reply w = Answer (Doc (JArray rows)) ->
  width rows < 6 ->
  fillDataFrame sym w
  = (Return tt,
     snd (set_symbol (symbol (Chart w))
            (with_df (Some (iloc_0_6 (pd_DataFrame rows))) (requested sym w)))).
Proof.
  intros E W. rewrite fillDataFrame_unfold, E.
  now rewrite (build_table_short rows (requested sym w) W).
Qed.

Lemma fillDataFrame_accepted sym w rows days c h l :
  accepted w rows days c h l ->
  fillDataFrame sym w
  = (Return tt,
     with_df (Some (with_indicators c h l (candle_table days rows)))
             (requested sym w)).
Proof.
  intros [E W D P]. rewrite fillDataFrame_unfold, E.
  now rewrite (build_table_accepted rows days c h l (requested sym w) W D P).
Qed.

(** ** The callback *)

Lemma ReadOnly_bind {A B} (c : Py World A) (k : A -> Py World B) :
  ReadOnly c -> (forall a, ReadOnly (k a)) -> ReadOnly (bind c k).
Proof.
  intros Hc Hk w. unfold bind. specialize (Hc w).
  destruct (c w) as [[a|e] w']; simpl in Hc; subst w'.
  - apply Hk.
  - reflexivity.
Qed.

Lemma ReadOnly_ret {A} (a : A) : ReadOnly (ret a).
Proof. intros w. reflexivity. Qed.

Lemma ReadOnly_lift {A} (o : Outcome A) : ReadOnly (lift o).
Proof. intros w. reflexivity. Qed.

Lemma ReadOnly_the_df : ReadOnly the_df.
Proof.
  intros w. unfold the_df, bind, self, get, ret, raise. cbn.
  destruct (df (Chart w)); reflexivity.
Qed.

Lemma ReadOnly_Chart_col k : ReadOnly (Chart_col k).
Proof.
  apply ReadOnly_bind; [apply ReadOnly_the_df | intros; apply ReadOnly_lift].
Qed.

Lemma ReadOnly_Chart_float k : ReadOnly (Chart_float k).
Proof.
  apply ReadOnly_bind; [apply ReadOnly_Chart_col | intros; apply ReadOnly_lift].
Qed.

Lemma ReadOnly_line name k : ReadOnly (line name k).
Proof.
  apply ReadOnly_bind; [apply ReadOnly_Chart_col|]. intros x.
  apply ReadOnly_bind; [apply ReadOnly_Chart_float|]. intros y.
  apply ReadOnly_ret.
Qed.

Lemma ReadOnly_add_traces list_ fig : ReadOnly (add_traces list_ fig).
Proof.
  revert fig. induction list_ as [|i rest IH]; intros fig; simpl.
  - apply ReadOnly_ret.
  - destruct (String.eqb i "Bollinger Bands").
    + apply ReadOnly_bind; [apply ReadOnly_line|]. intros u.
      apply ReadOnly_bind; [apply ReadOnly_line|]. intros l. apply IH.
    + apply ReadOnly_bind; [apply ReadOnly_line|]. intros t. apply IH.
Qed.

Lemma bind_then_read {A B} (c : Py World A) (k : A -> Py World B) w :
  (forall a, ReadOnly (k a)) -> snd (bind c k w) = snd (c w).
Proof.
  intros Hk. unfold bind. destruct (c w) as [[a|e] w']; [apply Hk | reflexivity].
Qed.

Lemma fetch_step v w :
  (w' <- get ;; fillDataFrame (str_upper w' v ++ "USDT"))%py w
  = fillDataFrame (str_upper w v ++ "USDT") w.
Proof. reflexivity. Qed.

(** The callback leaves the world as its fetch, if any, left it. *)
Lemma displayCandleStick_world value list_ w :
  snd (displayCandleStick value list_ w)
  = match value with
    | Some v => snd (fillDataFrame (str_upper w v ++ "USDT") w)
    | None => w
    end.
Proof.
  unfold displayCandleStick. rewrite bind_then_read.
  - destruct value; [now rewrite fetch_step | reflexivity].
  - intros _.
    repeat (apply ReadOnly_bind; [apply ReadOnly_Chart_col | intros ?]).
    apply ReadOnly_bind; [apply ReadOnly_add_traces | intros ?].
    apply ReadOnly_ret.
Qed.

Lemma displayCandleStick_raises v list_ w e :
  fst (fillDataFrame (str_upper w v ++ "USDT") w) = Raise e ->
  fst (displayCandleStick (Some v) list_ w) = Raise e.
Proof.
  intros H. unfold displayCandleStick. unfold bind at 1.
  rewrite fetch_step.
  destruct (fillDataFrame (str_upper w v ++ "USDT") w) as [[u|e'] w'];
    simpl in H; [discriminate|]. now inversion H.
Qed.

(** ** The constructor and the running session *)

Lemma CryptoChart_init_unfold w :
  CryptoChart_init w = fillDataFrame "BTCUSDT" (constructed w).
Proof. reflexivity. Qed.

Lemma accepted_two_days second :
  accepted (constructed (boot two_days second))
    [kline 0 100; kline 1 101] two_dates two_closes two_highs two_lows.
Proof.
  constructor.
  - reflexivity.
  - simpl. lia.
  - reflexivity.
  - constructor; try reflexivity; eexists; split; reflexivity.
Defined.

Lemma running_world second :
  running second
  = with_df (Some two_day_table)
      (requested "BTCUSDT" (constructed (boot two_days second))).
Proof.
  unfold running. rewrite CryptoChart_init_unfold.
  now rewrite (fillDataFrame_accepted "BTCUSDT" _ _ _ _ _ _
                 (accepted_two_days second)).
Defined.

Lemma next_reply_running second : next_reply (running second) = second.
Proof. rewrite running_world. reflexivity. Defined.

Lemma session_running second :
  session (running second) = ("BTCUSDT", Some two_day_table).
Proof. rewrite running_world. reflexivity. Defined.

(** ** Failed fetches *)

(** C1 -- failure preservation, at a failing input.  The session holds
    BTCUSDT and its table; the answer to a request for ETHUSDT has records
    without the volume field (five fields each).  [fillDataFrame] returns and
    puts the symbol back, but the table of the session is now the raw
    five-column frame of the answer, not the table it held; the next
    rendering of the chart raises [KeyError]. *)
Theorem short_records_replace_table :
  let w := running two_days_no_volume in
  let r := fillDataFrame "ETHUSDT" w in
  session w = ("BTCUSDT", Some two_day_table)
  /\ next_reply w = two_days_no_volume
  /\ fst r = Return tt
  /\ symbol (Chart (snd r)) = "BTCUSDT"
  /\ df (Chart (snd r))
     = Some (iloc_0_6 (pd_DataFrame [kline_no_volume 0 100;
                                     kline_no_volume 1 101]))
  /\ df (Chart (snd r)) <> df (Chart w)
  /\ fst (displayCandleStick None [] (snd r)) = Raise KeyError.
Proof.
  cbv zeta.
  assert (E : fillDataFrame "ETHUSDT" (running two_days_no_volume)
              = (Return tt,
                 snd (set_symbol (symbol (Chart (running two_days_no_volume)))
                        (with_df
                           (Some (iloc_0_6 (pd_DataFrame
                                    [kline_no_volume 0 100;
                                     kline_no_volume 1 101])))
                           (requested "ETHUSDT" (running two_days_no_volume)))))).
  { apply fillDataFrame_short.
    - apply next_reply_running.
    - simpl. lia. }
  rewrite E. clear E.
  split; [apply session_running|].
  split; [apply next_reply_running|].
  split; [reflexivity|].
  rewrite running_world.
  split; [reflexivity|]. split; [reflexivity|]. split.
  - intros H. cbn [snd set_symbol modify with_Chart with_df Chart df] in H.
    inversion H.
  - reflexivity.
Qed.

(** C6, as stated, fails on a transport error: the exception leaves
    [fillDataFrame], and the session is not as it was. *)
Lemma transport_error_not_recovered :
  let w := running Unreachable in
  next_reply w = Unreachable
  /\ fst (fillDataFrame "ETHUSDT" w) = Raise ConnectionError
  /\ ~ recovered_locally "ETHUSDT" w.
Proof.
  cbv zeta. split; [apply next_reply_running|].
  rewrite (fillDataFrame_unreachable "ETHUSDT" _ (next_reply_running _)).
  split; [reflexivity|].
  unfold recovered_locally.
  rewrite (fillDataFrame_unreachable "ETHUSDT" _ (next_reply_running _)).
  intros [H _]. discriminate H.
Qed.

(** C6, amended -- a body that cannot be decoded (not JSON, or the error
    object of the quote source) is recovered locally: [fillDataFrame] returns
    and the session is as before.  A transport error is not caught: it leaves
    [fillDataFrame] and the callback as [ConnectionError]. *)
Theorem fetch_failure_recovery sym w :
  (next_reply w = Answer NotJson
   \/ (exists code msg, next_reply w = Answer (Doc (JObject code msg))) ->
   recovered_locally sym w)
  /\ (next_reply w = Unreachable ->
      fst (fillDataFrame sym w) = Raise ConnectionError
      /\ forall v list_,
           fst (displayCandleStick (Some v) list_ w) = Raise ConnectionError).
Proof.
  split.
  - intros [E|[code [msg E]]]; unfold recovered_locally;
      [rewrite (fillDataFrame_not_json sym w E)
      |rewrite (fillDataFrame_error_object sym w code msg E)];
      split; reflexivity.
  - intros E. split.
    + now rewrite (fillDataFrame_unreachable sym w E).
    + intros v list_. apply displayCandleStick_raises.
      now rewrite (fillDataFrame_unreachable _ w E).
Qed.

Lemma fetch_failure_recovery_witness :
  recovered_locally "ETHUSDT" (running (Answer NotJson))
  /\ recovered_locally "ETHUSDT"
       (running (Answer (Doc (JObject (-1121) "Invalid symbol."))))
  /\ fst (displayCandleStick (Some "eth") [] (running Unreachable))
     = Raise ConnectionError.
Proof.
  split; [|split].
  - apply (proj1 (fetch_failure_recovery "ETHUSDT" (running (Answer NotJson)))).
    left. apply next_reply_running.
  - apply (proj1 (fetch_failure_recovery "ETHUSDT"
                    (running (Answer (Doc (JObject (-1121) "Invalid symbol.")))))).
    right. exists (-1121)%Z, "Invalid symbol."%string. apply next_reply_running.
  - apply (proj2 (fetch_failure_recovery "ETHUSDT" (running Unreachable))).
    apply next_reply_running.
Defined.

(** ** Symbols and fetches of the callback *)

Lemma upper_ascii_capital c : upper_ascii c = capital c.
Proof. destruct c as [[] [] [] [] [] [] [] []]; reflexivity. Qed.

Lemma upper_capitals v : upper v = capitals v.
Proof.
  induction v as [|c v IH]; simpl; [reflexivity|].
  now rewrite upper_ascii_capital, IH.
Qed.

(** The sample worlds have an ASCII runtime. *)
Lemma ascii_runtime_running second : ascii_runtime (running second).
Proof.
  intros v _. rewrite running_world. apply upper_capitals.
Qed.

(** C7 -- symbol qualification.  For every submitted text the callback
    sends exactly one request, for [value.upper()] followed by USDT; on
    ASCII text that is the text in capital letters, letter by letter.
    Whenever the fetch succeeds (lines 53 to 59 run through on the answer)
    the active symbol is that pair, and it does succeed on every accepted
    answer. *)
Theorem callback_fetches_qualified_pair v list_ w :
  let pair := (str_upper w v ++ "USDT")%string in
  let w' := snd (displayCandleStick (Some v) list_ w) in
  sent w' = sent w ++ [request_for pair w]
  /\ p_symbol (r_params (request_for pair w)) = pair
  /\ (ascii_runtime w -> ascii_text v = true ->
      pair = (capitals v ++ "USDT")%string)
  /\ (forall text,
        next_reply w = Answer text ->
        fst (build_table text (requested pair w)) = Return tt ->
        symbol (Chart w') = pair)
  /\ (forall rows days c h l,
        accepted w rows days c h l ->
        fst (fillDataFrame pair w) = Return tt
        /\ symbol (Chart w') = pair).
Proof.
  cbv zeta. rewrite displayCandleStick_world.
  split; [apply fillDataFrame_frame|]. split; [reflexivity|]. split; [|split].
  - intros Hrun Hv. now rewrite (Hrun v Hv).
  - intros text E Hok. rewrite fillDataFrame_unfold, E.
    destruct (build_table_frame text (requested (str_upper w v ++ "USDT") w))
      as [_ [_ Hsym]].
    destruct (build_table text (requested (str_upper w v ++ "USDT") w))
      as [[u|e] w2]; cbn [fst snd] in *; [exact Hsym | discriminate Hok].
  - intros rows days c h l A.
    rewrite (fillDataFrame_accepted _ w rows days c h l A).
    split; reflexivity.
Qed.

Lemma accepted_running_two_days :
  accepted (running two_days)
    [kline 0 100; kline 1 101] two_dates two_closes two_highs two_lows.
Proof.
  constructor.
  - apply next_reply_running.
  - simpl. lia.
  - rewrite running_world. reflexivity.
  - constructor; try reflexivity; eexists; split; reflexivity.
Defined.

(** The user submits eth (and Eth): the request is for ETHUSDT, which
    becomes the active symbol in place of BTCUSDT. *)
Lemma callback_fetches_qualified_pair_witness :
  let w := running two_days in
  let w' := snd (displayCandleStick (Some "eth") [] w) in
  sent w' = sent w ++ [request_for "ETHUSDT" w]
  /\ p_symbol (r_params (request_for "ETHUSDT" w)) = "ETHUSDT"%string
  /\ (str_upper w "eth" ++ "USDT")%string = "ETHUSDT"%string
  /\ (str_upper w "Eth" ++ "USDT")%string = "ETHUSDT"%string
  /\ symbol (Chart w) = "BTCUSDT"%string
  /\ symbol (Chart w') = "ETHUSDT"%string.
Proof.
  cbv zeta.
  destruct (callback_fetches_qualified_pair "eth" [] (running two_days))
    as [Hsent [Hp [Hcap [_ Hok]]]].
  pose proof (Hcap (ascii_runtime_running two_days) eq_refl) as E.
  cbn [capitals capital] in E.
  destruct (callback_fetches_qualified_pair "Eth" [] (running two_days))
    as [_ [_ [Hcap2 _]]].
  pose proof (Hcap2 (ascii_runtime_running two_days) eq_refl) as E2.
  cbn [capitals capital] in E2.
  rewrite E in Hsent, Hp.
  pose proof (proj2 (Hok _ _ _ _ _ accepted_running_two_days)) as Hsym.
  rewrite E in Hsym.
  split; [exact Hsent|]. split; [exact Hp|]. split; [exact E|].
  split; [exact E2|]. split; [|exact Hsym].
  rewrite running_world. reflexivity.
Defined.

(** C10, as stated, fails when the fetch fails: the user submits a symbol
    the quote source does not know; a request goes out, and the table
    afterwards is the table that was there before, whatever it was. *)
Lemma failed_fetch_keeps_table :
  let w := running (Answer (Doc (JObject (-1121) "Invalid symbol."))) in
  sent (snd (displayCandleStick (Some "xyz") [] w))
  = sent w ++ [request_for "XYZUSDT" w]
  /\ table_after "xyz" [] w = Some two_day_table
  /\ table_after "xyz" [] (with_df None w) = None.
Proof.
  cbv zeta. unfold table_after. rewrite !displayCandleStick_world.
  split; [apply (fillDataFrame_frame "XYZUSDT")|]. split.
  - rewrite (fillDataFrame_error_object _ _ _ _ (next_reply_running _)).
    rewrite running_world. reflexivity.
  - rewrite (fillDataFrame_error_object _ _ (-1121)%Z "Invalid symbol.").
    + reflexivity.
    + rewrite running_world. reflexivity.
Qed.

(** C10, amended -- every invocation with a symbol sends a fresh request,
    also when the symbol is the active one; when the fetch succeeds the table
    of the session is the table built from the answer, with its indicator
    columns.  An invocation without a symbol sends nothing and leaves the
    world as it is. *)
Theorem callback_always_fetches v list_ w :
  sent (snd (displayCandleStick (Some v) list_ w))
  = sent w ++ [request_for (str_upper w v ++ "USDT") w]
  /\ (forall rows days c h l,
        accepted w rows days c h l ->
        table_after v list_ w
        = Some (with_indicators c h l (candle_table days rows)))
  /\ snd (displayCandleStick None list_ w) = w.
Proof.
  unfold table_after. rewrite !displayCandleStick_world.
  split; [apply fillDataFrame_frame|]. split; [|reflexivity].
  intros rows days c h l A.
  now rewrite (fillDataFrame_accepted _ w rows days c h l A).
Qed.

(** The active symbol is submitted again: a request goes out all the same
    and the table is rebuilt from the new answer. *)
Lemma callback_always_fetches_witness :
  let w := running two_days in
  symbol (Chart w) = "BTCUSDT"
  /\ sent (snd (displayCandleStick (Some "btc") ["21MA"] w))
     = sent w ++ [request_for "BTCUSDT" w]
  /\ table_after "btc" ["21MA"] w = Some two_day_table
  /\ sent (snd (displayCandleStick None ["21MA"] w)) = sent w.
Proof.
  cbv zeta.
  destruct (callback_always_fetches "btc" ["21MA"] (running two_days))
    as [Hsent [Hok Hnone]].
  split; [rewrite running_world; reflexivity|].
  split; [exact Hsent|]. split.
  - exact (Hok _ _ _ _ _ accepted_running_two_days).
  - now rewrite Hnone.
Defined.

(** ** Request settings *)

Lemma request_for_backdrop sym w w' :
  backdrop w' = backdrop w -> request_for sym w' = request_for sym w.
Proof.
  unfold backdrop, request_for. intros H. inversion H. congruence.
Qed.

(** Serving events sends one request per submitted symbol, each built from
    the settings the session already had. *)
Lemma serve_frame events :
  forall w,
  exists issued,
    sent (snd (serve events w)) = sent w ++ issued
    /\ length issued = fetches events
    /\ Forall (fun r => exists sym, r = request_for sym w) issued
    /\ backdrop (snd (serve events w)) = backdrop w.
Proof.
  induction events as [|[value list_] rest IH]; intros w.
  - exists []. simpl. rewrite app_nil_r. repeat split. constructor.
  - cbn [serve]. rewrite displayCandleStick_world.
    destruct value as [v|].
    + destruct (fillDataFrame_frame (str_upper w v ++ "USDT") w) as [Hs Hb].
      destruct (IH (snd (fillDataFrame (str_upper w v ++ "USDT") w)))
        as [issued [Hs1 [Hl1 [Hf1 Hb1]]]].
      exists (request_for (str_upper w v ++ "USDT") w :: issued).
      split; [rewrite Hs1, Hs, <- app_assoc; reflexivity|].
      split; [unfold fetches in *; simpl; now rewrite Hl1|].
      split; [|congruence].
      constructor; [eauto|].
      eapply Forall_impl; [|exact Hf1].
      intros r [sym ->]. exists sym. now apply request_for_backdrop.
    + destruct (IH w) as [issued [Hs1 [Hl1 [Hf1 Hb1]]]].
      exists issued. repeat split; assumption.
Qed.

(** C8, as stated, fails after the module has loaded: the window of a later
    request still ends at the time of construction (1700000000 s), not at
    the time of the fetch (a day later). *)
Lemma request_window_is_stale :
  let w := running two_days in
  let r := request_for "ETHUSDT" w in
  sent (snd (displayCandleStick (Some "ETH") [] w)) = sent w ++ [r]
  /\ p_endTime (r_params r) = "1700000000000"
  /\ p_startTime (r_params r) = "1613600000000"
  /\ str (posix_seconds w (current_time w) * 1000) = "1700086400000"
  /\ p_endTime (r_params r) <> str (posix_seconds w (current_time w) * 1000).
Proof.
  cbv zeta. rewrite displayCandleStick_world.
  split; [apply (fillDataFrame_frame "ETHUSDT")|].
  rewrite running_world.
  split; [reflexivity|]. split; [reflexivity|]. split; [reflexivity|].
  intros H. vm_compute in H. discriminate H.
Qed.

(** C8, amended -- the module load and every later fetch send one request
    each, all with interval 1d, limit 1000 and one and the same window, which
    the constructor computes once: [startTime] is [int(t.timestamp()) * 1000]
    for [t] the first clock reading less [timedelta(days=1000)], taken on the
    local wall clock, and [endTime] is the same for the second clock
    reading.  The window is not moved to the time of a later fetch. *)
Theorem request_window_fixed_at_construction w0 events :
  exists issued,
    sent (snd (serve events (snd (CryptoChart_init w0)))) = sent w0 ++ issued
    /\ length issued = 1 + fetches events
    /\ Forall (window_of w0 (clock w0 (reads w0)) (clock w0 (S (reads w0))))
              issued.
Proof.
  rewrite CryptoChart_init_unfold.
  destruct (fillDataFrame_frame "BTCUSDT" (constructed w0)) as [Hs Hb].
  destruct (serve_frame events (snd (fillDataFrame "BTCUSDT" (constructed w0))))
    as [issued [Hs1 [Hl1 [Hf1 _]]]].
  exists (request_for "BTCUSDT" (constructed w0) :: issued).
  split; [rewrite Hs1, Hs, <- app_assoc; reflexivity|].
  split; [simpl; now rewrite Hl1|].
  constructor.
  - repeat split.
  - eapply Forall_impl; [|exact Hf1].
    intros r [sym ->]. rewrite (request_for_backdrop sym _ _ Hb).
    repeat split.
Qed.

(** * Further properties of the code *)

(** ** The engine and the columns it does not own *)

Lemma Keeps_bind {A B} (c : Py DataFrame A) (k : A -> Py DataFrame B) :
  Keeps c -> (forall a, Keeps (k a)) -> Keeps (bind c k).
Proof.
  intros Hc Hk d. unfold bind. specialize (Hc d).
  destruct (c d) as [[a|e] d1]; cbn [snd] in *.
  - destruct (Hk a d1) as [Hi Hl]. destruct Hc as [Hi0 Hl0]. split.
    + congruence.
    + intros k0 Ho. rewrite (Hl k0 Ho). now apply Hl0.
  - exact Hc.
Qed.

Lemma Keeps_col_float k : Keeps (col_float k).
Proof.
  intros d. unfold col_float, bind, get, lift.
  destruct (getitem k d) as [col|e]; [|now split].
  destruct (astype_float col); now split.
Qed.

Lemma Keeps_store k s : In k indicator_names -> Keeps (store k s).
Proof.
  intros Hk d. unfold store, modify. cbn [snd]. split; [reflexivity|].
  intros k0 Ho. unfold setitem. cbn [columns].
  apply lookup_assign_other.
  destruct k0 as [i|s0]; [reflexivity|]. simpl.
  apply String.eqb_neq. intros ->. exact (Ho k eq_refl Hk).
Qed.

Lemma Keeps_movingAverages : Keeps movingAverages.
Proof.
  unfold movingAverages.
  repeat
    (first
       [ apply Keeps_store; simpl; tauto
       | apply Keeps_col_float
       | apply Keeps_bind; [|intros ?] ]).
Qed.

(** X1 -- the engine writes its eight columns and nothing else: whether it
    returns or raises, the index and every column under another label
    ([Date], [Open], [High], [Low], [Close], [Volume], ...) are as they
    were. *)
Theorem movingAverages_keeps_other_columns d k :
  other_label k ->
  lookup k (columns (snd (movingAverages d))) = lookup k (columns d)
  /\ index (snd (movingAverages d)) = index d.
Proof.
  intros Ho. destruct (Keeps_movingAverages d) as [Hi Hl].
  split; [now apply Hl | exact Hi].
Qed.

Lemma movingAverages_keeps_other_columns_witness :
  lookup (Name "Close") (columns (snd (movingAverages table_25)))
  = lookup (Name "Close") (columns table_25)
  /\ index (snd (movingAverages table_25)) = index table_25.
Proof.
  apply (movingAverages_keeps_other_columns table_25 (Name "Close")).
  intros s E. inversion E. subst s. simpl.
  intros [H|[H|[H|[H|[H|[H|[H|[H|[]]]]]]]]]; discriminate H.
Defined.

(** ** The engine on columns it cannot read *)

Lemma col_float_other k k' s' d :
  String.eqb k k' = false ->
  col_float k (setitem k' s' d) = (fst (col_float k d), setitem k' s' d).
Proof.
  intros E. unfold col_float, bind, get, lift, getitem.
  rewrite lookup_setitem, E.
  destruct (lookup (Name k) (columns d)) as [col|]; [|reflexivity].
  now destruct (astype_float col).
Qed.

Lemma col_float_averages k c d :
  String.eqb k "21MA" = false -> String.eqb k "50MA" = false ->
  String.eqb k "100MA" = false -> String.eqb k "200MA" = false ->
  col_float k (with_averages c d) = (fst (col_float k d), with_averages c d).
Proof.
  intros E1 E2 E3 E4. unfold with_averages.
  rewrite (col_float_other k "200MA" _ _ E4). f_equal.
  rewrite (col_float_other k "100MA" _ _ E3). cbn [fst].
  rewrite (col_float_other k "50MA" _ _ E2). cbn [fst].
  now rewrite (col_float_other k "21MA" _ _ E1).
Qed.

(** The first four assignments, when [Close] reads as [c]. *)
Lemma movingAverages_averages d c :
  col_float "Close" d = (Return c, d) ->
  movingAverages d
  = bind (c0 <- col_float "Close" ;;
          h <- col_float "High" ;;
          l <- col_float "Low" ;;
          store "TP" (series_div (series_add (series_add c0 h) l) 3))%py
      (fun _ =>
         (tp <- col_float "TP" ;; store "STD" (rolling_std 20 tp)) ;;
         (tp <- col_float "TP" ;;
          sd <- col_float "STD" ;;
          store "BOLU" (series_add (rolling_mean 20 tp) (scalar_mul 2 sd))) ;;
         (tp <- col_float "TP" ;;
          sd <- col_float "STD" ;;
          store "BOLD" (series_sub (rolling_mean 20 tp) (scalar_mul 2 sd))))%py
      (with_averages c d).
Proof.
  intros Hc. unfold movingAverages, with_averages.
  pose proof (col_float_other "Close" "21MA" (rolling_mean 21 c) d eq_refl) as H1.
  rewrite Hc in H1. cbn [fst] in H1.
  pose proof (col_float_other "Close" "50MA" (rolling_mean 50 c)
                (setitem "21MA" (rolling_mean 21 c) d) eq_refl) as H2.
  rewrite H1 in H2. cbn [fst] in H2.
  pose proof (col_float_other "Close" "100MA" (rolling_mean 100 c)
                (setitem "50MA" (rolling_mean 50 c)
                   (setitem "21MA" (rolling_mean 21 c) d)) eq_refl) as H3.
  rewrite H2 in H3. cbn [fst] in H3.
  unfold bind at 1. unfold bind at 1. rewrite Hc. unfold store, modify.
  unfold bind at 1. unfold bind at 1. rewrite H1.
  unfold bind at 1. unfold bind at 1. rewrite H2.
  unfold bind at 1. unfold bind at 1. rewrite H3.
  reflexivity.
Qed.

(** X2 -- a frame without a [Close] column makes the engine raise [KeyError],
    a [Close] that holds a string which is no number makes it raise
    [ValueError]; in both cases the frame is left exactly as it was. *)
Theorem movingAverages_unreadable_close d :
  (lookup (Name "Close") (columns d) = None ->
   movingAverages d = (Raise KeyError, d))
  /\ (forall col,
        lookup (Name "Close") (columns d) = Some col ->
        floats_of col = None ->
        movingAverages d = (Raise ValueError, d)).
Proof.
  split.
  - intros H. unfold movingAverages.
    unfold bind at 1. unfold bind at 1.
    unfold col_float, bind, get, lift, getitem. now rewrite H.
  - intros col H F. unfold movingAverages.
    unfold bind at 1. unfold bind at 1.
    unfold col_float, bind, get, lift, getitem, astype_float. now rewrite H, F.
Qed.

Lemma movingAverages_unreadable_close_witness :
  movingAverages (pd_DataFrame [kline 0 100]) 
  = (Raise KeyError, pd_DataFrame [kline 0 100])
  /\ movingAverages table_bad_close = (Raise ValueError, table_bad_close).
Proof.
  split.
  - apply (proj1 (movingAverages_unreadable_close (pd_DataFrame [kline 0 100]))).
    reflexivity.
  - apply (proj2 (movingAverages_unreadable_close table_bad_close)
             [Txt None]); reflexivity.
Defined.

(** X3 -- the engine is not atomic: when [Close] is numeric but [High] holds
    a string which is no number, it raises [ValueError] after the four
    moving-average columns have been written, and before any of [TP], [STD],
    [BOLU], [BOLD]. *)
Theorem movingAverages_stops_at_high d col c bad :
  lookup (Name "Close") (columns d) = Some col ->
  floats_of col = Some c ->
  lookup (Name "High") (columns d) = Some bad ->
  floats_of bad = None ->
  movingAverages d = (Raise ValueError, with_averages c d).
Proof.
  intros Hc Fc Hh Fh.
  pose proof (col_float_ok "Close" d col c Hc Fc) as Ec.
  rewrite (movingAverages_averages d c Ec).
  pose proof (col_float_averages "Close" c d eq_refl eq_refl eq_refl eq_refl) as E1.
  rewrite Ec in E1. cbn [fst] in E1.
  pose proof (col_float_averages "High" c d eq_refl eq_refl eq_refl eq_refl) as E2.
  assert (Eh : col_float "High" d = (Raise ValueError, d)).
  { unfold col_float, bind, get, lift, getitem, astype_float. now rewrite Hh, Fh. }
  rewrite Eh in E2. cbn [fst] in E2.
  unfold bind at 1. unfold bind at 1. rewrite E1.
  unfold bind at 1. rewrite E2. reflexivity.
Qed.

Lemma movingAverages_stops_at_high_witness :
  movingAverages table_bad_high
  = (Raise ValueError, with_averages [Some 2%R] table_bad_high)
  /\ lookup (Name "21MA") (columns (with_averages [Some 2%R] table_bad_high))
     = Some [Null]
  /\ lookup (Name "TP") (columns (with_averages [Some 2%R] table_bad_high))
     = None.
Proof.
  split; [|split; reflexivity].
  apply (movingAverages_stops_at_high table_bad_high
           [Txt (Some 2%R)] [Some 2%R] [Txt None]); reflexivity.
Defined.

(** ** No look-ahead *)

Lemma read_derived name c h l d :
  In name indicator_names ->
  col_float name (with_indicators c h l d)
  = (Return (derived name c h l), with_indicators c h l d).
Proof.
  intros [E|[E|[E|[E|[E|[E|[E|[E|[]]]]]]]]]; subst name; read_indicator.
Qed.

Lemma window_app n i (xs ys : Series) :
  i < length xs -> window n i (xs ++ ys) = window n i xs.
Proof.
  intros Hi. unfold window. rewrite firstn_app.
  replace (i + 1 - length xs) with 0 by lia.
  now rewrite firstn_O, app_nil_r.
Qed.

Lemma rolling_mean_app n (xs ys : Series) i :
  i < length xs ->
  nth_error (rolling_mean n (xs ++ ys)) i = nth_error (rolling_mean n xs) i.
Proof.
  intros Hi. rewrite !nth_error_rolling_mean; [|assumption|].
  - now rewrite window_app.
  - rewrite length_app. lia.
Qed.

Lemma rolling_std_app n (xs ys : Series) i :
  i < length xs ->
  nth_error (rolling_std n (xs ++ ys)) i = nth_error (rolling_std n xs) i.
Proof.
  intros Hi. rewrite !nth_error_rolling_std; [|assumption|].
  - now rewrite window_app.
  - rewrite length_app. lia.
Qed.

Lemma zip_with_app {A B C} (f : A -> B -> C) a a2 b b2 :
  length a = length b ->
  zip_with f (a ++ a2) (b ++ b2) = zip_with f a b ++ zip_with f a2 b2.
Proof.
  revert b. induction a as [|x a IH]; intros [|y b] H; simpl in *;
    try discriminate; [reflexivity|].
  f_equal. apply IH. lia.
Qed.

Lemma typical_price_app c h l c2 h2 l2 :
  length h = length c -> length l = length c ->
  typical_price (c ++ c2) (h ++ h2) (l ++ l2)
  = typical_price c h l ++ typical_price c2 h2 l2.
Proof.
  intros Hh Hl. unfold typical_price, series_div, series_add.
  rewrite (zip_with_app fadd c c2 h h2) by lia.
  rewrite zip_with_app by (rewrite length_zip_with; lia).
  apply map_app.
Qed.

Lemma rolling_mean_row n (xs : Series) i :
  i < length xs -> exists m, nth_error (rolling_mean n xs) i = Some m.
Proof. intros Hi. rewrite nth_error_rolling_mean by assumption. eauto. Qed.

Lemma rolling_std_row n (xs : Series) i :
  i < length xs -> exists s, nth_error (rolling_std n xs) i = Some s.
Proof. intros Hi. rewrite nth_error_rolling_std by assumption. eauto. Qed.

Lemma upper_band_app (tp tp2 : Series) i :
  i < length tp ->
  nth_error (upper_band (tp ++ tp2)) i = nth_error (upper_band tp) i.
Proof.
  intros Hi.
  destruct (rolling_mean_row 20 tp i Hi) as [m Hm].
  destruct (rolling_std_row 20 tp i Hi) as [s Hs].
  rewrite (nth_error_upper_band tp i m s Hm Hs).
  apply nth_error_upper_band.
  - now rewrite rolling_mean_app.
  - now rewrite rolling_std_app.
Qed.

Lemma lower_band_app (tp tp2 : Series) i :
  i < length tp ->
  nth_error (lower_band (tp ++ tp2)) i = nth_error (lower_band tp) i.
Proof.
  intros Hi.
  destruct (rolling_mean_row 20 tp i Hi) as [m Hm].
  destruct (rolling_std_row 20 tp i Hi) as [s Hs].
  rewrite (nth_error_lower_band tp i m s Hm Hs).
  apply nth_error_lower_band.
  - now rewrite rolling_mean_app.
  - now rewrite rolling_std_app.
Qed.

Lemma derived_app name c h l c2 h2 l2 i :
  In name indicator_names ->
  length h = length c -> length l = length c -> i < length c ->
  nth_error (derived name (c ++ c2) (h ++ h2) (l ++ l2)) i
  = nth_error (derived name c h l) i.
Proof.
  intros Hin Hh Hl Hi.
  pose proof (length_typical_price c h l Hh Hl) as Ltp.
  destruct Hin as [E|[E|[E|[E|[E|[E|[E|[E|[]]]]]]]]]; subst name;
    unfold derived; cbn [String.eqb Ascii.eqb Bool.eqb];
    rewrite ?typical_price_app by assumption.
  - now apply rolling_mean_app.
  - now apply rolling_mean_app.
  - now apply rolling_mean_app.
  - now apply rolling_mean_app.
  - apply nth_error_app1. lia.
  - apply rolling_std_app. lia.
  - apply upper_band_app. lia.
  - apply lower_band_app. lia.
Qed.

(** X4 -- no look-ahead.  When a table is extended by later rows, every
    column the engine writes keeps, on the rows that were already there, the
    values it had before: an indicator never depends on candles after its
    row. *)
Theorem indicators_do_not_look_ahead d c h l d2 c2 h2 l2 :
  prices d c h l ->
  prices d2 (c ++ c2) (h ++ h2) (l ++ l2) ->
  exists d' d2',
    movingAverages d = (Return tt, d')
    /\ movingAverages d2 = (Return tt, d2')
    /\ forall name,
         In name indicator_names ->
         exists s s2,
           col_float name d' = (Return s, d')
           /\ col_float name d2' = (Return s2, d2')
           /\ forall i, i < length c -> nth_error s2 i = nth_error s i.
Proof.
  intros P P2.
  exists (with_indicators c h l d),
    (with_indicators (c ++ c2) (h ++ h2) (l ++ l2) d2).
  split; [now apply movingAverages_returns|].
  split; [now apply movingAverages_returns|].
  intros name Hin.
  exists (derived name c h l), (derived name (c ++ c2) (h ++ h2) (l ++ l2)).
  split; [now apply read_derived|]. split; [now apply read_derived|].
  intros i Hi. apply derived_app; try assumption.
  - apply (prices_high_rows P).
  - apply (prices_low_rows P).
Qed.

Lemma indicators_do_not_look_ahead_witness :
  exists d' d2' s s2,
    movingAverages (candle_table two_dates [kline 0 100; kline 1 101])
    = (Return tt, d')
    /\ movingAverages table_25 = (Return tt, d2')
    /\ col_float "TP" d' = (Return s, d')
    /\ col_float "TP" d2' = (Return s2, d2')
    /\ nth_error s2 1 = nth_error s 1.
Proof.
  destruct (indicators_do_not_look_ahead
              (candle_table two_dates [kline 0 100; kline 1 101])
              two_closes two_highs two_lows
              table_25
              (map (fun z => Some (IZR z)) (skipn 2 closes_100_124))
              (map (fun z => Some (IZR (z + 1))) (skipn 2 closes_100_124))
              (map (fun z => Some (IZR (z - 1))) (skipn 2 closes_100_124))
              (accepted_prices (accepted_two_days Unreachable))
              prices_table_25)
    as [d' [d2' [H1 [H2 Hall]]]].
  destruct (Hall "TP") as [s [s2 [Hs [Hs2 Hrows]]]]; [simpl; tauto|].
  exists d', d2', s, s2. repeat split; try assumption.
  apply Hrows. simpl. lia.
Defined.

(** ** Averages stay within the closes they average *)

Lemma sum_bounds xs lo hi :
  Forall (fun x => (lo <= x <= hi)%R) xs ->
  (INR (length xs) * lo <= sum xs <= INR (length xs) * hi)%R.
Proof.
  induction 1 as [|x xs Hx _ IH].
  - simpl. lra.
  - change (sum (x :: xs)) with (x + sum xs)%R.
    change (length (x :: xs)) with (S (length xs)).
    rewrite S_INR. lra.
Qed.

Lemma mean_bounds xs lo hi :
  xs <> [] ->
  Forall (fun x => (lo <= x <= hi)%R) xs ->
  (lo <= mean xs <= hi)%R.
Proof.
  intros Hne H. pose proof (sum_bounds xs lo hi H) as [Hl Hh].
  assert (Hn : (0 < INR (length xs))%R).
  { apply lt_0_INR. destruct xs; [congruence | simpl; lia]. }
  unfold mean. split.
  - apply (Rmult_le_reg_r (INR (length xs))); [assumption|].
    unfold Rdiv. rewrite Rmult_assoc, Rinv_l by lra. lra.
  - apply (Rmult_le_reg_r (INR (length xs))); [assumption|].
    unfold Rdiv. rewrite Rmult_assoc, Rinv_l by lra. lra.
Qed.

Lemma In_observed x (w : Series) : In x (observed w) -> In (Some x) w.
Proof.
  induction w as [|[y|] w IH]; simpl; intros H.
  - exact H.
  - destruct H as [->|H]; [now left | right; now apply IH].
  - right. now apply IH.
Qed.

Lemma In_window n i (xs : Series) v :
  In v (window n i xs) ->
  exists j, i + 1 - n <= j <= i /\ nth_error xs j = Some v.
Proof.
  intros H. apply In_nth_error in H. destruct H as [k Hk].
  unfold window in Hk. rewrite nth_error_skipn in Hk.
  assert (Hlt : i + 1 - n + k < i + 1).
  { destruct (Nat.lt_ge_cases (i + 1 - n + k) (i + 1)) as [L|G]; [exact L|].
    rewrite nth_error_firstn in Hk.
    apply Nat.ltb_ge in G. rewrite G in Hk. discriminate. }
  rewrite nth_error_firstn in Hk.
  apply Nat.ltb_lt in Hlt. rewrite Hlt in Hk. apply Nat.ltb_lt in Hlt.
  exists (i + 1 - n + k). split; [lia | exact Hk].
Qed.

Lemma rolling_mean_bounds n (xs : Series) i m lo hi :
  0 < n ->
  nth_error (rolling_mean n xs) i = Some (Some m) ->
  (forall j x, i + 1 - n <= j <= i -> nth_error xs j = Some (Some x) ->
               (lo <= x <= hi)%R) ->
  (lo <= m <= hi)%R.
Proof.
  intros Hn Hm Hb.
  assert (Hi : i < length xs).
  { rewrite <- (length_rolling_mean n xs). apply nth_error_Some. congruence. }
  rewrite nth_error_rolling_mean in Hm by assumption.
  destruct (Nat.leb_spec n (length (observed (window n i xs)))) as [Hle|];
    [|discriminate].
  inversion Hm. apply mean_bounds.
  - intros E. rewrite E in Hle. simpl in Hle. lia.
  - apply Forall_forall. intros x Hx.
    apply In_observed, In_window in Hx. destruct Hx as [j [Hj Hx]].
    now apply (Hb j x).
Qed.

(** X5 -- a moving average never leaves the range of the closes it is taken
    over: if every close of rows i-n+1 to i lies between [lo] and [hi], so
    does the value of the n-window average at row i. *)
Theorem moving_average_within_closes d c h l :
  prices d c h l ->
  exists d',
    movingAverages d = (Return tt, d')
    /\ forall name n,
         In (name, n) moving_average_windows ->
         exists s,
           col_float name d' = (Return s, d')
           /\ forall i m lo hi,
                nth_error s i = Some (Some m) ->
                (forall j x, i + 1 - n <= j <= i ->
                             nth_error c j = Some (Some x) ->
                             (lo <= x <= hi)%R) ->
                (lo <= m <= hi)%R.
Proof.
  intros P. exists (with_indicators c h l d).
  split; [now apply movingAverages_returns|].
  intros name n Hin. exists (rolling_mean n c).
  split; [now apply read_MA|].
  intros i m lo hi Hm Hb. apply (rolling_mean_bounds n c i m lo hi); try assumption.
  destruct Hin as [E|[E|[E|[E|[]]]]]; inversion E; lia.
Qed.

Lemma moving_average_within_closes_witness :
  exists d' s m,
    movingAverages table_25 = (Return tt, d')
    /\ col_float "21MA" d' = (Return s, d')
    /\ nth_error s 20 = Some (Some m)
    /\ (100 <= m <= 120)%R.
Proof.
  destruct (moving_average_within_closes _ _ _ _ prices_table_25)
    as [d' [Hrun Hall]].
  destruct (Hall "21MA" 21) as [s [Hs Hb]]; [simpl; tauto|].
  pose proof Hrun as E.
  rewrite (movingAverages_returns _ _ _ _ prices_table_25) in E.
  inversion E as [Ed]. clear E.
  pose proof Hs as Es. rewrite <- Ed in Es.
  rewrite (read_MA _ _ _ _ "21MA" 21) in Es by (simpl; tauto).
  inversion Es as [Es'].
  assert (Hm : exists m, nth_error s 20 = Some (Some m))
    by (rewrite <- Es'; eexists; reflexivity).
  destruct Hm as [m Hm].
  exists d', s, m. repeat split; try assumption;
    apply (Hb 20 m 100%R 120%R Hm);
    intros j x Hj Hx;
    do 21 (destruct j as [|j]; [inversion Hx; lra|]); lia.
Defined.

(** ** A flat market *)

Lemma sum_repeat x n : sum (repeat x n) = (INR n * x)%R.
Proof.
  induction n as [|n IH].
  - simpl. lra.
  - change (sum (repeat x (S n))) with (x + sum (repeat x n))%R.
    rewrite IH, S_INR. lra.
Qed.

Lemma mean_repeat x n : 0 < n -> mean (repeat x n) = x.
Proof.
  intros Hn. unfold mean. rewrite sum_repeat, repeat_length.
  assert (INR n <> 0%R) by (apply not_0_INR; lia).
  now field.
Qed.

Lemma ssqdm_repeat x n : 0 < n -> ssqdm (repeat x n) = 0%R.
Proof.
  intros Hn. unfold ssqdm. rewrite (mean_repeat x n Hn).
  induction n as [|k IH]; [lia|].
  destruct k as [|k].
  - simpl. lra.
  - change (repeat x (S (S k))) with (x :: repeat x (S k)).
    cbn [map]. change (sum (?a :: ?b)) with (a + sum b)%R.
    rewrite IH by lia. lra.
Qed.

Lemma std_repeat x n : 1 < n -> std 1 (repeat x n) = 0%R.
Proof.
  intros Hn. unfold std. rewrite ssqdm_repeat by lia.
  unfold Rdiv. rewrite Rmult_0_l. apply sqrt_0.
Qed.

Lemma all_rows_repeat {A} (w : list A) v :
  (forall k, k < length w -> nth_error w k = Some v) ->
  w = repeat v (length w).
Proof.
  induction w as [|a w IH]; intros H; [reflexivity|].
  simpl. f_equal.
  - specialize (H 0 (Nat.lt_0_succ _)). simpl in H. congruence.
  - apply IH. intros k Hk. apply (H (S k)). simpl. lia.
Qed.

Lemma observed_repeat x n : observed (repeat (Some x) n) = repeat x n.
Proof. induction n as [|n IH]; simpl; congruence. Qed.

Lemma flat_window (tp : Series) i x :
  19 <= i -> i < length tp ->
  (forall j, i - 19 <= j <= i -> nth_error tp j = Some (Some x)) ->
  observed (window 20 i tp) = repeat x 20.
Proof.
  intros H19 Hi Hflat.
  assert (L : length (window 20 i tp) = 20)
    by (rewrite length_window by assumption; lia).
  rewrite (all_rows_repeat (window 20 i tp) (Some x)).
  - rewrite L. apply observed_repeat.
  - intros k Hk. unfold window. rewrite nth_error_skipn, nth_error_firstn.
    replace (i + 1 - 20 + k <? i + 1) with true
      by (symmetry; apply Nat.ltb_lt; lia).
    apply Hflat. lia.
Qed.

(** X6 -- a flat market.  Where the typical price has been the same for
    twenty rows, the deviation is zero and both Bollinger bands lie on the
    typical price. *)
Theorem flat_prices_close_the_bands d c h l :
  prices d c h l ->
  exists d' tp sd bu bd,
    movingAverages d = (Return tt, d')
    /\ col_float "TP" d' = (Return tp, d')
    /\ col_float "STD" d' = (Return sd, d')
    /\ col_float "BOLU" d' = (Return bu, d')
    /\ col_float "BOLD" d' = (Return bd, d')
    /\ forall i x,
         19 <= i -> i < length c ->
         (forall j, i - 19 <= j <= i -> nth_error tp j = Some (Some x)) ->
         nth_error sd i = Some (Some 0%R)
         /\ nth_error bu i = Some (Some x)
         /\ nth_error bd i = Some (Some x).
Proof.
  intros P.
  pose proof (length_typical_price c h l (prices_high_rows P) (prices_low_rows P))
    as Ltp.
  exists (with_indicators c h l d), (typical_price c h l),
    (rolling_std 20 (typical_price c h l)),
    (upper_band (typical_price c h l)), (lower_band (typical_price c h l)).
  split; [now apply movingAverages_returns|].
  split; [apply read_TP|]. split; [apply read_STD|].
  split; [apply read_BOLU|]. split; [apply read_BOLD|].
  intros i x H19 Hi Hflat. rewrite <- Ltp in Hi.
  pose proof (flat_window _ i x H19 Hi Hflat) as Hw.
  assert (Hs : nth_error (rolling_std 20 (typical_price c h l)) i
               = Some (Some 0%R)).
  { rewrite nth_error_rolling_std by assumption. rewrite Hw, repeat_length.
    cbn [Nat.leb Nat.ltb andb]. now rewrite std_repeat by lia. }
  assert (Hm : nth_error (rolling_mean 20 (typical_price c h l)) i
               = Some (Some x)).
  { rewrite nth_error_rolling_mean by assumption. rewrite Hw, repeat_length.
    cbn [Nat.leb]. now rewrite mean_repeat by lia. }
  split; [exact Hs|]. split.
  - rewrite (nth_error_upper_band _ i _ _ Hm Hs). simpl. do 2 f_equal. lra.
  - rewrite (nth_error_lower_band _ i _ _ Hm Hs). simpl. do 2 f_equal. lra.
Qed.

Lemma prices_table_flat :
  prices table_flat
    (repeat (Some 100%R) 20)
    (repeat (Some (IZR (100 + 1))) 20)
    (repeat (Some (IZR (100 - 1))) 20).
Proof.
  constructor; try reflexivity; eexists; split; reflexivity.
Defined.

Lemma flat_prices_close_the_bands_witness :
  exists d' sd bu bd,
    movingAverages table_flat = (Return tt, d')
    /\ col_float "STD" d' = (Return sd, d')
    /\ col_float "BOLU" d' = (Return bu, d')
    /\ col_float "BOLD" d' = (Return bd, d')
    /\ nth_error sd 19 = Some (Some 0%R)
    /\ nth_error bu 19 = Some (Some ((100 + 101 + 99) / 3)%R)
    /\ nth_error bd 19 = Some (Some ((100 + 101 + 99) / 3)%R).
Proof.
  destruct (flat_prices_close_the_bands _ _ _ _ prices_table_flat)
    as [d' [tp [sd [bu [bd [Hrun [Htp [Hsd [Hbu [Hbd Hflat]]]]]]]]]].
  pose proof Hrun as E.
  rewrite (movingAverages_returns _ _ _ _ prices_table_flat) in E.
  inversion E as [Ed]. clear E.
  pose proof Htp as Et. rewrite <- Ed, read_TP in Et. inversion Et as [Etp].
  exists d', sd, bu, bd.
  split; [exact Hrun|]. split; [exact Hsd|].
  split; [exact Hbu|]. split; [exact Hbd|].
  apply (Hflat 19 ((100 + 101 + 99) / 3)%R); [lia | simpl; lia |].
  intros j Hj. rewrite <- Etp.
  do 20 (destruct j as [|j]; [reflexivity|]). lia.
Defined.

(** ** What [fillDataFrame] leaves behind *)

Lemma build_table_req_params text w :
  req_params (Chart (snd (build_table text w))) = req_params (Chart w).
Proof.
  destruct (build_table_world text w) as [o [E|[t E]]]; now rewrite E.
Qed.

(** X7 -- [fillDataFrame] never raises [ValueError].  When another exception
    leaves it, the symbol of the session is the requested one (nothing is
    put back); when it returns, the symbol is the requested one or the one
    the session had before, never anything else. *)
Theorem fillDataFrame_outcomes sym w :
  fst (fillDataFrame sym w) <> Raise ValueError
  /\ (forall e, fst (fillDataFrame sym w) = Raise e ->
                symbol (Chart (snd (fillDataFrame sym w))) = sym)
  /\ (fst (fillDataFrame sym w) = Return tt ->
      symbol (Chart (snd (fillDataFrame sym w))) = sym
      \/ symbol (Chart (snd (fillDataFrame sym w))) = symbol (Chart w)).
Proof.
  rewrite fillDataFrame_unfold.
  destruct (next_reply w) as [|text].
  - cbn [fst snd]. split; [discriminate|]. split; [reflexivity | discriminate].
  - destruct (build_table_frame text (requested sym w)) as [_ [_ Hsym]].
    destruct (build_table text (requested sym w)) as [[u|e] w2];
      cbn [fst snd] in *.
    + split; [discriminate|]. split; [discriminate|]. intros _. now left.
    + destruct e; cbn [fst snd];
        (split; [discriminate|]); split;
        try (intros e' He'; discriminate He');
        try (intros _; now right);
        try (intros e' _; exact Hsym);
        try discriminate.
Qed.

Lemma fillDataFrame_outcomes_witness :
  fst (fillDataFrame "ETHUSDT" (running Unreachable)) = Raise ConnectionError
  /\ symbol (Chart (snd (fillDataFrame "ETHUSDT" (running Unreachable))))
     = "ETHUSDT".
Proof.
  assert (E : fst (fillDataFrame "ETHUSDT" (running Unreachable))
              = Raise ConnectionError)
    by now rewrite (fillDataFrame_unreachable _ _ (next_reply_running _)).
  split; [exact E|].
  exact (proj1 (proj2 (fillDataFrame_outcomes "ETHUSDT" (running Unreachable)))
           ConnectionError E).
Defined.

(** X8 -- after [fillDataFrame], [self.req_params] holds the parameters of
    the request just sent, whatever came back: also after a failed fetch
    that put the symbol back, so that the recorded request then names
    another symbol than the session. *)
Theorem req_params_names_last_request sym w :
  req_params (Chart (snd (fillDataFrame sym w)))
  = Some (r_params (request_for sym w)).
Proof.
  rewrite fillDataFrame_unfold.
  destruct (next_reply w) as [|text]; [reflexivity|].
  pose proof (build_table_req_params text (requested sym w)) as H.
  destruct (build_table text (requested sym w)) as [[u|e] w2];
    cbn [snd] in *; [exact H|].
  destruct e; exact H.
Qed.

(** ** The constructor when the first fetch fails *)

Lemma chart_without_table list_ w :
  df (Chart w) = None ->
  fst (displayCandleStick None list_ w) = Raise AttributeError.
Proof.
  intros H. unfold displayCandleStick.
  unfold bind at 1. unfold ret at 1.
  unfold bind at 1. unfold Chart_col at 1. unfold bind at 1.
  unfold the_df, bind, self, get, ret, raise. cbn. now rewrite H.
Qed.

(** X9 -- the constructor's own fetch.  If the first answer cannot be
    decoded, [CryptoChart()] still returns, with an empty symbol and no
    table at all, and every rendering of the chart without a new symbol
    raises [AttributeError]; if the transport fails, the constructor itself
    raises [ConnectionError]. *)
Theorem constructor_first_fetch w0 :
  (next_reply w0 = Answer NotJson
   \/ (exists code msg, next_reply w0 = Answer (Doc (JObject code msg))) ->
   fst (CryptoChart_init w0) = Return tt
   /\ session (snd (CryptoChart_init w0)) = (""%string, None)
   /\ forall list_,
        fst (displayCandleStick None list_ (snd (CryptoChart_init w0)))
        = Raise AttributeError)
  /\ (next_reply w0 = Unreachable ->
      fst (CryptoChart_init w0) = Raise ConnectionError).
Proof.
  rewrite CryptoChart_init_unfold.
  change (next_reply w0) with (next_reply (constructed w0)).
  split.
  - intros [E|[code [msg E]]];
      [rewrite (fillDataFrame_not_json _ _ E)
      |rewrite (fillDataFrame_error_object _ _ _ _ E)];
      (split; [reflexivity|]); (split; [reflexivity|]);
      intros list_; now apply chart_without_table.
  - intros E. now rewrite (fillDataFrame_unreachable _ _ E).
Qed.

Lemma constructor_first_fetch_witness :
  session (snd (CryptoChart_init (boot (Answer NotJson) two_days)))
  = (""%string, None)
  /\ fst (displayCandleStick None ["21MA"]
            (snd (CryptoChart_init (boot (Answer NotJson) two_days))))
     = Raise AttributeError
  /\ fst (CryptoChart_init (boot Unreachable two_days)) = Raise ConnectionError.
Proof.
  destruct (constructor_first_fetch (boot (Answer NotJson) two_days))
    as [H _].
  destruct (H (or_introl eq_refl)) as [_ [Hs Hr]].
  split; [exact Hs|]. split; [apply Hr|].
  exact (proj2 (constructor_first_fetch (boot Unreachable two_days)) eq_refl).
Defined.

(** ** The table of a successful fetch *)

Lemma columns_of_candle_table rows days :
  6 <= width rows ->
  columns (candle_table days rows)
  = [(Name "Date", field 0 rows); (Name "Open", field 1 rows);
     (Name "High", field 2 rows); (Name "Low", field 3 rows);
     (Name "Close", field 4 rows); (Name "Volume", field 5 rows)].
Proof.
  intros W. unfold candle_table. cbn [columns].
  rewrite (columns_of_records rows W). reflexivity.
Qed.

Lemma columns_of_loaded_table rows days c h l :
  6 <= width rows ->
  columns (with_indicators c h l (candle_table days rows))
  = [(Name "Date", field 0 rows); (Name "Open", field 1 rows);
     (Name "High", field 2 rows); (Name "Low", field 3 rows);
     (Name "Close", field 4 rows); (Name "Volume", field 5 rows);
     (Name "21MA", map of_float (rolling_mean 21 c));
     (Name "50MA", map of_float (rolling_mean 50 c));
     (Name "100MA", map of_float (rolling_mean 100 c));
     (Name "200MA", map of_float (rolling_mean 200 c));
     (Name "TP", map of_float (typical_price c h l));
     (Name "STD", map of_float (rolling_std 20 (typical_price c h l)));
     (Name "BOLU", map of_float (upper_band (typical_price c h l)));
     (Name "BOLD", map of_float (lower_band (typical_price c h l)))].
Proof.
  intros W. unfold with_indicators, setitem. cbn [columns].
  rewrite (columns_of_candle_table rows days W). reflexivity.
Qed.

Lemma length_each {A B} (f : A -> Outcome B) xs ys :
  each f xs = Return ys -> length ys = length xs.
Proof.
  revert ys. induction xs as [|x xs IH]; simpl; intros ys H.
  - now inversion H.
  - destruct (f x) as [y|e]; [|discriminate].
    destruct (each f xs) as [zs|e]; [|discriminate].
    inversion H. simpl. now rewrite (IH zs).
Qed.

Lemma length_field j rows : length (field j rows) = length rows.
Proof. apply length_map. Qed.

Lemma accepted_rows w rows days c h l :
  accepted w rows days c h l ->
  length c = length rows /\ length h = length rows /\ length l = length rows
  /\ length days = length rows.
Proof.
  intros [E W D [[cc [Hc Fc]] [hc [Hh Fh]] [lc [Hl Fl]] Lh Ll]].
  rewrite (columns_of_candle_table rows days W) in Hc, Hh, Hl.
  simpl in Hc, Hh, Hl. inversion Hc. inversion Hh. inversion Hl. subst.
  apply length_floats_of in Fc, Fh, Fl. rewrite length_field in *.
  apply length_each in D. rewrite length_map in D. auto.
Qed.

(** X10 -- the table of a successful fetch.  It has the fourteen columns
    [Date], [Open], [High], [Low], [Close], [Volume], [21MA], [50MA],
    [100MA], [200MA], [TP], [STD], [BOLU], [BOLD], in this order; every
    column has one cell per record of the answer, and the index has one
    date per record. *)
Theorem loaded_table_layout sym w rows days c h l :
  accepted w rows days c h l ->
  exists t,
    df (Chart (snd (fillDataFrame sym w))) = Some t
    /\ map fst (columns t) = map Name (column_names ++ indicator_names)
    /\ Forall (fun col => length (snd col) = length rows) (columns t)
    /\ index t = DateIndex days
    /\ nrows t = length rows.
Proof.
  intros A. destruct (accepted_rows w rows days c h l A) as [Lc [Lh [Ll Ld]]].
  pose proof (length_typical_price c h l) as Ltp.
  rewrite Lh, Ll, Lc in Ltp. specialize (Ltp eq_refl eq_refl).
  exists (with_indicators c h l (candle_table days rows)).
  split; [now rewrite (fillDataFrame_accepted sym w rows days c h l A)|].
  rewrite (columns_of_loaded_table rows days c h l (accepted_width A)).
  split; [reflexivity|]. split.
  - repeat constructor; cbn [snd];
      rewrite ?length_field, ?length_map, ?length_rolling_mean,
        ?length_rolling_std, ?length_upper_band, ?length_lower_band;
      congruence.
  - split; [reflexivity|]. unfold nrows. cbn. exact Ld.
Qed.

Lemma loaded_table_layout_witness :
  exists t,
    df (Chart (snd (fillDataFrame "ETHUSDT" (running two_days)))) = Some t
    /\ map fst (columns t) = map Name (column_names ++ indicator_names)
    /\ nrows t = 2.
Proof.
  destruct (loaded_table_layout "ETHUSDT" _ _ _ _ _ _ accepted_running_two_days)
    as [t [Ht [Hcols [_ [_ Hrows]]]]].
  exists t. repeat split; assumption.
Defined.

(** ** Fields after the sixth *)

Lemma nth_firstn_lt {A} (n j : nat) (r : list A) d :
  j < n -> nth j (firstn n r) d = nth j r d.
Proof.
  revert j r. induction n as [|n IH]; intros j r Hj; [lia|].
  destruct r as [|a r]; [reflexivity|].
  destruct j as [|j]; [reflexivity|].
  simpl. apply IH. lia.
Qed.

Lemma width_firstn n rows :
  width (map (firstn n) rows) = Nat.min n (width rows).
Proof.
  induction rows as [|r rows IH]; simpl.
  - now rewrite Nat.min_0_r.
  - rewrite IH, length_firstn. lia.
Qed.

Lemma field_firstn j rows :
  j < 6 -> field j (map (firstn 6) rows) = field j rows.
Proof.
  intros Hj. unfold field. rewrite map_map.
  apply map_ext. intros r. now apply nth_firstn_lt.
Qed.

Lemma candle_table_firstn rows days :
  6 <= width rows ->
  candle_table days (map (firstn 6) rows) = candle_table days rows.
Proof.
  intros W.
  assert (W6 : 6 <= width (map (firstn 6) rows))
    by (rewrite width_firstn; lia).
  pose proof (columns_of_candle_table _ days W6) as E1.
  pose proof (columns_of_candle_table _ days W) as E2.
  rewrite !field_firstn in E1 by lia. rewrite <- E2 in E1.
  unfold candle_table in *. cbn [columns] in E1. now rewrite E1.
Qed.

(** X11 -- only the first six fields of a record count.  Cutting every record
    of an accepted answer after its sixth field gives an answer that is
    accepted as well and leaves the same table in the session. *)
Theorem fields_after_sixth_ignored sym w w2 rows days c h l :
  accepted w rows days c h l ->
  next_reply w2 = Answer (Doc (JArray (map (firstn 6) rows))) ->
  fromtimestamp w2 = fromtimestamp w ->
  fst (fillDataFrame sym w2) = Return tt
  /\ df (Chart (snd (fillDataFrame sym w2)))
     = df (Chart (snd (fillDataFrame sym w))).
Proof.
  intros A E2 F.
  assert (A2 : accepted w2 (map (firstn 6) rows) days c h l).
  { destruct A as [E W D P]. constructor.
    - exact E2.
    - rewrite width_firstn. lia.
    - rewrite F. change (map (fun r => nth 0 r Null) ?x) with (field 0 x).
      rewrite field_firstn by lia. exact D.
    - now rewrite candle_table_firstn. }
  rewrite (fillDataFrame_accepted sym w2 _ days c h l A2).
  rewrite (fillDataFrame_accepted sym w rows days c h l A).
  rewrite (candle_table_firstn rows days (accepted_width A)).
  split; reflexivity.
Qed.

Lemma accepted_seven_fields :
  accepted (running (Answer (Doc (JArray two_days_seven_fields))))
    two_days_seven_fields two_dates two_closes two_highs two_lows.
Proof.
  constructor.
  - apply next_reply_running.
  - simpl. lia.
  - rewrite running_world. reflexivity.
  - constructor; try reflexivity; eexists; split; reflexivity.
Defined.

Lemma fields_after_sixth_ignored_witness :
  df (Chart (snd (fillDataFrame "ETHUSDT" (running two_days))))
  = df (Chart (snd (fillDataFrame "ETHUSDT"
                      (running (Answer (Doc (JArray two_days_seven_fields))))))).
Proof.
  apply (fields_after_sixth_ignored "ETHUSDT" _ (running two_days)
           _ _ _ _ _ accepted_seven_fields).
  - apply next_reply_running.
  - rewrite !running_world. reflexivity.
Defined.

(** ** The symbol the user types *)

(** X12 -- the symbol input is case-insensitive on ASCII text: under a
    runtime that capitalises ASCII text letter by letter, two texts with
    the same capitals (btc, Btc, BTC) make the callback do the same, to the
    world and in what it returns. *)
Theorem callback_ignores_case v1 v2 list_ w :
  ascii_runtime w ->
  ascii_text v1 = true -> ascii_text v2 = true ->
  capitals v1 = capitals v2 ->
  displayCandleStick (Some v1) list_ w = displayCandleStick (Some v2) list_ w.
Proof.
  intros Hrun H1 H2 E. unfold displayCandleStick.
  unfold bind at 1. rewrite fetch_step.
  rewrite (Hrun v1 H1), E, <- (Hrun v2 H2).
  symmetry. unfold bind at 1. now rewrite fetch_step.
Qed.

Lemma callback_ignores_case_witness :
  displayCandleStick (Some "btc") ["21MA"] (running two_days)
  = displayCandleStick (Some "BTC") ["21MA"] (running two_days)
  /\ displayCandleStick (Some "Btc") ["21MA"] (running two_days)
     = displayCandleStick (Some "BTC") ["21MA"] (running two_days)
  /\ sent (snd (displayCandleStick (Some "btc") ["21MA"] (running two_days)))
     = sent (running two_days)
       ++ [request_for "BTCUSDT" (running two_days)].
Proof.
  split; [|split].
  - apply (callback_ignores_case "btc" "BTC" ["21MA"] (running two_days)
             (ascii_runtime_running two_days)); reflexivity.
  - apply (callback_ignores_case "Btc" "BTC" ["21MA"] (running two_days)
             (ascii_runtime_running two_days)); reflexivity.
  - rewrite displayCandleStick_world.
    destruct (fillDataFrame_frame
                (str_upper (running two_days) "btc" ++ "USDT")
                (running two_days)) as [Hs _].
    rewrite Hs. rewrite (ascii_runtime_running two_days "btc" eq_refl).
    reflexivity.
Defined.

(** ** Rendering *)

Lemma Chart_col_ok k w t col :
  df (Chart w) = Some t ->
  lookup (Name k) (columns t) = Some col ->
  Chart_col k w = (Return col, w).
Proof.
  intros Hd Hk. unfold Chart_col, bind, the_df, self, get, ret, lift, getitem.
  cbn. rewrite Hd. cbn. now rewrite Hk.
Qed.

Lemma Chart_col_missing k w t :
  df (Chart w) = Some t ->
  lookup (Name k) (columns t) = None ->
  Chart_col k w = (Raise KeyError, w).
Proof.
  intros Hd Hk. unfold Chart_col, bind, the_df, self, get, ret, lift, getitem.
  cbn. rewrite Hd. cbn. now rewrite Hk.
Qed.

Lemma Chart_float_ok k w t s :
  df (Chart w) = Some t ->
  lookup (Name k) (columns t) = Some (map of_float s) ->
  Chart_float k w = (Return s, w).
Proof.
  intros Hd Hk. unfold Chart_float. unfold bind at 1.
  rewrite (Chart_col_ok k w t _ Hd Hk). unfold lift, astype_float.
  now rewrite floats_of_floats.
Qed.

Lemma line_ok name k w t x s :
  df (Chart w) = Some t ->
  lookup (Name "Date") (columns t) = Some x ->
  lookup (Name k) (columns t) = Some (map of_float s) ->
  line name k w = (Return {| sc_x := x; sc_y := s; sc_name := name |}, w).
Proof.
  intros Hd Hx Hk. unfold line.
  unfold bind at 1. rewrite (Chart_col_ok "Date" w t x Hd Hx).
  unfold bind at 1. rewrite (Chart_float_ok k w t s Hd Hk). reflexivity.
Qed.

Lemma line_missing name k w t x :
  df (Chart w) = Some t ->
  lookup (Name "Date") (columns t) = Some x ->
  lookup (Name k) (columns t) = None ->
  line name k w = (Raise KeyError, w).
Proof.
  intros Hd Hx Hk. unfold line.
  unfold bind at 1. rewrite (Chart_col_ok "Date" w t x Hd Hx).
  unfold bind at 1. unfold Chart_float. unfold bind at 1.
  now rewrite (Chart_col_missing k w t Hd Hk).
Qed.

Lemma lookup_derived rows days c h l name :
  In name indicator_names ->
  lookup (Name name) (columns (with_indicators c h l (candle_table days rows)))
  = Some (map of_float (derived name c h l)).
Proof.
  intros [E|[E|[E|[E|[E|[E|[E|[E|[]]]]]]]]]; subst name;
    unfold with_indicators; rewrite !lookup_setitem; reflexivity.
Qed.

(** The traces of a selection from the offered names, on a loaded table. *)
Lemma add_traces_average rows days c h l w i rest fig :
  In i ["21MA"; "50MA"; "100MA"; "200MA"] ->
  6 <= width rows ->
  df (Chart w) = Some (with_indicators c h l (candle_table days rows)) ->
  add_traces (i :: rest) fig w
  = add_traces rest
      (fig ++ [{| sc_x := field 0 rows; sc_y := derived i c h l;
                  sc_name := i |}]) w
  /\ trace_names (i :: rest) = i :: trace_names rest.
Proof.
  intros Hi W Hd.
  assert (Hx : lookup (Name "Date")
                 (columns (with_indicators c h l (candle_table days rows)))
               = Some (field 0 rows))
    by now rewrite (columns_of_loaded_table rows days c h l W).
  assert (Hk : In i indicator_names) by (simpl in *; tauto).
  pose proof (line_ok i i w _ _ _ Hd Hx (lookup_derived rows days c h l i Hk))
    as L.
  destruct Hi as [E|[E|[E|[E|[]]]]]; subst i;
    cbn [add_traces trace_names String.eqb Ascii.eqb Bool.eqb];
    unfold bind at 1; rewrite L; split; reflexivity.
Qed.

Lemma add_traces_bollinger rows days c h l w rest fig :
  6 <= width rows ->
  df (Chart w) = Some (with_indicators c h l (candle_table days rows)) ->
  add_traces ("Bollinger Bands" :: rest) fig w
  = add_traces rest
      (fig ++ [{| sc_x := field 0 rows; sc_y := derived "BOLU" c h l;
                  sc_name := "Upper Bollinger Band" |};
               {| sc_x := field 0 rows; sc_y := derived "BOLD" c h l;
                  sc_name := "Lower Bollinger Band" |}]) w.
Proof.
  intros W Hd.
  assert (Hx : lookup (Name "Date")
                 (columns (with_indicators c h l (candle_table days rows)))
               = Some (field 0 rows))
    by now rewrite (columns_of_loaded_table rows days c h l W).
  pose proof (line_ok "Upper Bollinger Band" "BOLU" w _ _ _ Hd Hx
                (lookup_derived rows days c h l "BOLU"
                   ltac:(simpl; tauto))) as Lu.
  pose proof (line_ok "Lower Bollinger Band" "BOLD" w _ _ _ Hd Hx
                (lookup_derived rows days c h l "BOLD"
                   ltac:(simpl; tauto))) as Ll.
  cbn [add_traces String.eqb Ascii.eqb Bool.eqb].
  unfold bind at 1. rewrite Lu. unfold bind at 1. rewrite Ll. reflexivity.
Qed.

Lemma add_traces_offered rows days c h l w list_ :
  6 <= width rows ->
  df (Chart w) = Some (with_indicators c h l (candle_table days rows)) ->
  Forall (fun i => In i offered) list_ ->
  forall fig,
  exists ts,
    add_traces list_ fig w = (Return (fig ++ ts), w)
    /\ map sc_name ts = trace_names list_
    /\ Forall (fun t => sc_x t = field 0 rows) ts.
Proof.
  intros W Hd Hall.
  induction Hall as [|i rest Hi _ IH]; intros fig.
  - exists []. simpl. rewrite app_nil_r. repeat split. constructor.
  - assert (Hcase : In i ["21MA"; "50MA"; "100MA"; "200MA"]
                    \/ i = "Bollinger Bands"%string)
      by (unfold offered in Hi; simpl in *; intuition).
    destruct Hcase as [Hma | ->].
    + destruct (add_traces_average rows days c h l w i rest fig Hma W Hd)
        as [E N].
      rewrite E, N.
      destruct (IH (fig ++ [{| sc_x := field 0 rows; sc_y := derived i c h l;
                               sc_name := i |}])) as [ts [Ets [Nts Fts]]].
      exists ({| sc_x := field 0 rows; sc_y := derived i c h l;
                 sc_name := i |} :: ts).
      rewrite Ets, <- app_assoc. split; [reflexivity|].
      split; [simpl; now rewrite Nts|]. now constructor.
    + rewrite (add_traces_bollinger rows days c h l w rest fig W Hd).
      match goal with
      | |- context [add_traces rest (fig ++ ?new) w] =>
          destruct (IH (fig ++ new)) as [ts [Ets [Nts Fts]]];
          exists (new ++ ts)
      end.
      rewrite Ets, <- app_assoc. split; [reflexivity|].
      split; [simpl; now rewrite Nts|].
      simpl. repeat constructor. exact Fts.
Qed.

(** X13 -- a symbol with a good answer, and any selection from the names the
    dropdown offers: the callback returns a figure.  Its candlestick shows
    fields 0, 1, 2, 3 and 4 of the records as date, open, high, low and
    close; there is one line per selected moving average and two for
    Bollinger Bands, in the order of the selection, all over the dates of
    the new answer. *)
Theorem callback_renders_new_answer v list_ w rows days c h l :
  accepted w rows days c h l ->
  Forall (fun i => In i offered) list_ ->
  exists fig,
    fst (displayCandleStick (Some v) list_ w) = Return fig
    /\ candles fig = {| cs_x := field 0 rows; cs_open := field 1 rows;
                        cs_close := field 4 rows; cs_high := field 2 rows;
                        cs_low := field 3 rows |}
    /\ map sc_name (traces fig) = trace_names list_
    /\ Forall (fun t => sc_x t = field 0 rows) (traces fig).
Proof.
  intros A Hall. pose proof (accepted_width A) as W.
  unfold displayCandleStick. unfold bind at 1. rewrite fetch_step.
  rewrite (fillDataFrame_accepted _ w rows days c h l A).
  set (w1 := with_df _ _).
  assert (Hd : df (Chart w1)
               = Some (with_indicators c h l (candle_table days rows)))
    by reflexivity.
  pose proof (columns_of_loaded_table rows days c h l W) as Hcols.
  unfold bind at 1.
  rewrite (Chart_col_ok "Date" w1 _ (field 0 rows) Hd)
    by (rewrite Hcols; reflexivity).
  unfold bind at 1.
  rewrite (Chart_col_ok "Open" w1 _ (field 1 rows) Hd)
    by (rewrite Hcols; reflexivity).
  unfold bind at 1.
  rewrite (Chart_col_ok "Close" w1 _ (field 4 rows) Hd)
    by (rewrite Hcols; reflexivity).
  unfold bind at 1.
  rewrite (Chart_col_ok "High" w1 _ (field 2 rows) Hd)
    by (rewrite Hcols; reflexivity).
  unfold bind at 1.
  rewrite (Chart_col_ok "Low" w1 _ (field 3 rows) Hd)
    by (rewrite Hcols; reflexivity).
  destruct (add_traces_offered rows days c h l w1 list_ W Hd Hall [])
    as [ts [Ets [Nts Fts]]].
  unfold bind at 1. rewrite Ets. cbn [app].
  eexists. split; [reflexivity|]. cbn [candles traces].
  repeat split; assumption.
Qed.

Lemma callback_renders_new_answer_witness :
  exists fig,
    fst (displayCandleStick (Some "eth") ["Bollinger Bands"; "21MA"]
           (running two_days)) = Return fig
    /\ cs_close (candles fig) = [Txt (Some 100%R); Txt (Some 101%R)]
    /\ map sc_name (traces fig)
       = ["Upper Bollinger Band"; "Lower Bollinger Band"; "21MA"].
Proof.
  destruct (callback_renders_new_answer "eth" ["Bollinger Bands"; "21MA"]
              _ _ _ _ _ _ accepted_running_two_days)
    as [fig [Hfig [Hc [Hn _]]]].
  - repeat constructor; simpl; tauto.
  - exists fig. split; [exact Hfig|]. split; [now rewrite Hc | exact Hn].
Defined.

Lemma lookup_absent k cols :
  ~ In k (map fst cols) -> lookup k cols = None.
Proof.
  induction cols as [|[k' col] cols IH]; simpl; intros H; [reflexivity|].
  destruct (label_eqb k k') eqn:E.
  - exfalso. apply H. left.
    destruct k, k'; simpl in E; try discriminate.
    + apply Nat.eqb_eq in E. now subst.
    + apply String.eqb_eq in E. now subst.
  - apply IH. tauto.
Qed.

(** X14 -- a selected name that is neither a column of the table nor
    [Bollinger Bands] makes the callback raise [KeyError], after the fetch
    has been made and the candlestick columns have been read. *)
Theorem unknown_indicator_raises v i rest w rows days c h l :
  accepted w rows days c h l ->
  ~ In i (column_names ++ indicator_names) ->
  i <> "Bollinger Bands"%string ->
  fst (displayCandleStick (Some v) (i :: rest) w) = Raise KeyError
  /\ df (Chart (snd (displayCandleStick (Some v) (i :: rest) w)))
     = Some (with_indicators c h l (candle_table days rows)).
Proof.
  intros A Hi Hb. pose proof (accepted_width A) as W.
  split.
  2:{ rewrite displayCandleStick_world.
      now rewrite (fillDataFrame_accepted _ w rows days c h l A). }
  unfold displayCandleStick. unfold bind at 1. rewrite fetch_step.
  rewrite (fillDataFrame_accepted _ w rows days c h l A).
  set (w1 := with_df _ _).
  assert (Hd : df (Chart w1)
               = Some (with_indicators c h l (candle_table days rows)))
    by reflexivity.
  pose proof (columns_of_loaded_table rows days c h l W) as Hcols.
  unfold bind at 1.
  rewrite (Chart_col_ok "Date" w1 _ (field 0 rows) Hd)
    by (rewrite Hcols; reflexivity).
  unfold bind at 1.
  rewrite (Chart_col_ok "Open" w1 _ (field 1 rows) Hd)
    by (rewrite Hcols; reflexivity).
  unfold bind at 1.
  rewrite (Chart_col_ok "Close" w1 _ (field 4 rows) Hd)
    by (rewrite Hcols; reflexivity).
  unfold bind at 1.
  rewrite (Chart_col_ok "High" w1 _ (field 2 rows) Hd)
    by (rewrite Hcols; reflexivity).
  unfold bind at 1.
  rewrite (Chart_col_ok "Low" w1 _ (field 3 rows) Hd)
    by (rewrite Hcols; reflexivity).
  unfold bind at 1. cbn [add_traces].
  apply String.eqb_neq in Hb. rewrite Hb.
  unfold bind at 1.
  rewrite (line_missing i i w1 _ (field 0 rows) Hd).
  - reflexivity.
  - rewrite Hcols. reflexivity.
  - apply lookup_absent. rewrite Hcols. cbn [map fst].
    intros H. apply Hi.
    change (In (Name i) (map Name (column_names ++ indicator_names))) in H.
    apply in_map_iff in H. destruct H as [s [E Hs]]. inversion E. now subst.
Qed.

Lemma unknown_indicator_raises_witness :
  fst (displayCandleStick (Some "eth") ["EMA"] (running two_days))
  = Raise KeyError.
Proof.
  apply (unknown_indicator_raises "eth" "EMA" [] _ _ _ _ _ _
           accepted_running_two_days).
  - simpl. intros H.
    repeat (destruct H as [H|H]; [discriminate H|]). exact H.
  - discriminate.
Defined.

(** ** The window of the constructor *)

Lemma fillDataFrame_window sym w :
  startTime (Chart (snd (fillDataFrame sym w))) = startTime (Chart w)
  /\ endTime (Chart (snd (fillDataFrame sym w))) = endTime (Chart w).
Proof.
  destruct (fillDataFrame_frame sym w) as [_ Hb].
  unfold backdrop in Hb. inversion Hb. now split.
Qed.

Lemma whole_seconds_days_ago t :
  ((t - timedelta_days 1000) / 1000000 = t / 1000000 - 86400000)%Z.
Proof.
  unfold timedelta_days.
  replace (t - 1000 * 86400 * 1000000)%Z
    with (t + (- 86400000) * 1000000)%Z by lia.
  rewrite Z.div_add by lia. lia.
Qed.

(** X15 -- the window the constructor sets, on a host whose local zone
    keeps a fixed offset from UTC (no daylight-saving change), for clock
    readings from day 1000 of the epoch to 2^52 microseconds after it:
    [startTime] is the whole second of the first reading less 86 400 000
    seconds and [endTime] the whole second of the second reading, both in
    milliseconds; with both readings in the same second the window is
    exactly 1000 days long. *)
Theorem constructor_window off w0 :
  fixed_offset off w0 ->
  (0 <= clock w0 (reads w0) - timedelta_days 1000 - off)%Z ->
  (clock w0 (reads w0) - off < 2 ^ 52)%Z ->
  (0 <= clock w0 (S (reads w0)) - off < 2 ^ 52)%Z ->
  let s1 := ((clock w0 (reads w0) - off) / 1000000)%Z in
  let s2 := ((clock w0 (S (reads w0)) - off) / 1000000)%Z in
  startTime (Chart (snd (CryptoChart_init w0))) = str ((s1 - 86400000) * 1000)
  /\ endTime (Chart (snd (CryptoChart_init w0))) = str (s2 * 1000)
  /\ (s1 = s2 ->
      (s2 * 1000 - (s1 - 86400000) * 1000 = 1000 * 86400 * 1000)%Z).
Proof.
  intros Hzone H1 H1' H2 s1 s2. rewrite CryptoChart_init_unfold.
  destruct (fillDataFrame_window "BTCUSDT" (constructed w0)) as [Hs He].
  rewrite Hs, He. cbn [constructed Chart startTime endTime].
  rewrite (Hzone (clock w0 (reads w0) - timedelta_days 1000)%Z)
    by (unfold timedelta_days in *; lia).
  rewrite (Hzone (clock w0 (S (reads w0)))) by lia.
  replace (clock w0 (reads w0) - timedelta_days 1000 - off)%Z
    with (clock w0 (reads w0) - off - timedelta_days 1000)%Z by lia.
  rewrite whole_seconds_days_ago.
  split; [reflexivity|]. split; [reflexivity|].
  intros E. subst s1 s2. lia.
Qed.

Lemma fixed_offset_boot first second : fixed_offset 0 (boot first second).
Proof.
  intros t _. cbn [boot posix_seconds]. unfold utc_seconds.
  now rewrite Z.sub_0_r.
Qed.

Lemma constructor_window_witness :
  startTime (Chart (running two_days)) = "1613600000000"%string
  /\ endTime (Chart (running two_days)) = "1700000000000"%string.
Proof.
  destruct (constructor_window 0 (boot two_days two_days)
              (fixed_offset_boot two_days two_days)) as [Hs [He _]].
  - vm_compute. discriminate.
  - vm_compute. reflexivity.
  - vm_compute. split; [discriminate | reflexivity].
  - unfold running. rewrite Hs, He. split; reflexivity.
Defined.

(** ** Answers with gaps *)

(** X16 -- a record shorter than the others does not fail the fetch as long as
    some record has six fields: the fetch is accepted on the same terms, and
    the cells the short record lacks hold the missing marker in the table. *)
Theorem short_record_among_full_ones sym w rows days c h l i r j :
  accepted w rows days c h l ->
  nth_error rows i = Some r ->
  length r <= j -> j < 6 ->
  exists t name col,
    df (Chart (snd (fillDataFrame sym w))) = Some t
    /\ nth_error column_names j = Some name
    /\ lookup (Name name) (columns t) = Some col
    /\ nth_error col i = Some Null.
Proof.
  intros A Hr Hlen Hj. pose proof (accepted_width A) as W.
  exists (with_indicators c h l (candle_table days rows)).
  assert (Hcell : nth_error (field j rows) i = Some Null).
  { unfold field. rewrite nth_error_map, Hr. simpl.
    now rewrite nth_overflow. }
  rewrite (fillDataFrame_accepted sym w rows days c h l A).
  rewrite (columns_of_loaded_table rows days c h l W).
  do 6 (destruct j as [|j];
        [eexists; eexists; split; [reflexivity|];
         split; [reflexivity|]; split; [reflexivity | exact Hcell]|]).
  lia.
Qed.

Lemma accepted_second_without_volume :
  accepted (running (Answer (Doc (JArray second_without_volume))))
    second_without_volume two_dates two_closes two_highs two_lows.
Proof.
  constructor.
  - apply next_reply_running.
  - simpl. lia.
  - rewrite running_world. reflexivity.
  - constructor; try reflexivity; eexists; split; reflexivity.
Defined.

Lemma short_record_among_full_ones_witness :
  exists t col,
    df (Chart (snd (fillDataFrame "ETHUSDT"
                      (running (Answer (Doc (JArray second_without_volume)))))))
    = Some t
    /\ lookup (Name "Volume") (columns t) = Some col
    /\ nth_error col 1 = Some Null.
Proof.
  destruct (short_record_among_full_ones "ETHUSDT" _ _ _ _ _ _ 1
              (kline_no_volume 1 101) 5 accepted_second_without_volume)
    as [t [name [col [Ht [Hn [Hl Hc]]]]]];
    [reflexivity | simpl; lia | lia |].
  inversion Hn. subst name.
  exists t, col. repeat split; assumption.
Defined.

(** ** A date that does not convert *)

Lemma build_table_bad_date rows w e :
  6 <= width rows ->
  each (fromtimestamp w) (field 0 rows) = Raise e ->
  build_table (Doc (JArray rows)) w
  = (Raise e, with_df (Some (renamed_table rows)) w).
Proof.
  intros W D. unfold build_table.
  unfold bind at 1. unfold lift at 1. cbn [json_loads].
  unfold bind at 1. unfold lift at 1. cbn [DataFrame_of_json].
  unfold bind at 1. rewrite set_df_with_df.
  unfold bind at 1. unfold bind at 1. rewrite the_df_with_df.
  rewrite set_df_with_df, with_df_with_df.
  unfold bind at 1. rewrite on_df_with_df, (rename_statement rows W).
  cbn [fst snd].
  unfold bind at 1. unfold bind at 1. unfold get at 1.
  unfold bind at 1. rewrite the_df_with_df.
  unfold bind at 1. unfold lift at 1.
  change (getitem "Date" _) with (getitem "Date" (candle_table [] rows)).
  rewrite (Date_of_candle_table rows [] W).
  unfold bind at 1. unfold lift at 1.
  change (fromtimestamp (with_df _ w)) with (fromtimestamp w).
  change (map (fun r => nth 0 r Null) rows) with (field 0 rows).
  rewrite D. reflexivity.
Qed.

(** X17 -- when a cell of the time column does not convert to a date, what
    happens depends on the exception.  A [ValueError] is caught:
    [fillDataFrame] returns with the previous symbol.  Any other exception
    leaves [fillDataFrame] with the requested symbol in the session.  In both
    cases the table of the session is already the renamed six-column frame
    of the answer, without date index and without indicators. *)
Theorem unconvertible_date sym w rows e :
  next_reply w = Answer (Doc (JArray rows)) ->
  6 <= width rows ->
  each (fromtimestamp w) (field 0 rows) = Raise e ->
  df (Chart (snd (fillDataFrame sym w))) = Some (renamed_table rows)
  /\ (e = ValueError ->
      fst (fillDataFrame sym w) = Return tt
      /\ symbol (Chart (snd (fillDataFrame sym w))) = symbol (Chart w))
  /\ (e <> ValueError ->
      fst (fillDataFrame sym w) = Raise e
      /\ symbol (Chart (snd (fillDataFrame sym w))) = sym).
Proof.
  intros E W D. rewrite fillDataFrame_unfold, E.
  rewrite (build_table_bad_date rows (requested sym w) e W D).
  destruct e; (split; [reflexivity|]); split;
    try (intros H; discriminate H);
    try (intros H; now contradiction H);
    intros _; split; reflexivity.
Qed.

Lemma unconvertible_date_witness :
  fst (fillDataFrame "ETHUSDT"
         (running (Answer (Doc (JArray second_with_text_date)))))
  = Raise TypeError
  /\ session (snd (fillDataFrame "ETHUSDT"
                     (running (Answer (Doc (JArray second_with_text_date))))))
     = ("ETHUSDT"%string, Some (renamed_table second_with_text_date)).
Proof.
  destruct (unconvertible_date "ETHUSDT"
              (running (Answer (Doc (JArray second_with_text_date))))
              second_with_text_date TypeError)
    as [Hd [_ Hother]].
  - apply next_reply_running.
  - simpl. lia.
  - rewrite running_world. reflexivity.
  - destruct (Hother ltac:(discriminate)) as [Ho Hs].
    split; [exact Ho|]. unfold session. now rewrite Hd, Hs.
Defined.

(** ** The deviation, with and without gaps *)

Lemma prices_gap :
  prices (candle_table gap_days gap_rows) gap_closes gap_highs gap_lows.
Proof.
  constructor; try reflexivity; eexists; split; reflexivity.
Defined.

Lemma accepted_gap :
  accepted (running (Answer (Doc (JArray gap_rows))))
    gap_rows gap_days gap_closes gap_highs gap_lows.
Proof.
  constructor.
  - apply next_reply_running.
  - simpl. lia.
  - rewrite running_world. reflexivity.
  - exact prices_gap.
Defined.

(** C5, at a failing input.  The answer has twenty daily records; the
    sixth carries JSON null as its high.  The fetch is accepted.  TP is
    missing on row 5 only, so nineteen TP values are present on rows 0 to
    19 and they have a sample standard deviation; the STD column at row 19
    holds the missing marker all the same: [skipna=True] on line 82 has no
    effect on the rolling aggregate, which wants twenty observations. *)
Theorem gap_blanks_the_deviation :
  let w := running (Answer (Doc (JArray gap_rows))) in
  accepted w gap_rows gap_days gap_closes gap_highs gap_lows
  /\ exists t tp sd,
       fillDataFrame "ETHUSDT" w
       = (Return tt, with_df (Some t) (requested "ETHUSDT" w))
       /\ col_float "TP" t = (Return tp, t)
       /\ col_float "STD" t = (Return sd, t)
       /\ nth_error tp 5 = Some nan
       /\ length (present (rows_of 0 20 tp)) = 19
       /\ (exists s, sample_std (rows_of 0 20 tp) = Some s)
       /\ nth_error sd 19 = Some nan.
Proof.
  cbv zeta. split; [exact accepted_gap|].
  exists (with_indicators gap_closes gap_highs gap_lows
            (candle_table gap_days gap_rows)),
    (typical_price gap_closes gap_highs gap_lows),
    (rolling_std 20 (typical_price gap_closes gap_highs gap_lows)).
  split; [apply (fillDataFrame_accepted _ _ _ _ _ _ _ accepted_gap)|].
  split; [apply read_TP|]. split; [apply read_STD|].
  split; [reflexivity|]. split; [reflexivity|]. split.
  - unfold sample_std.
    replace (length (present (rows_of 0 20
               (typical_price gap_closes gap_highs gap_lows))) <=? 1)
      with false by reflexivity.
    eexists. reflexivity.
  - apply rolling_std_gap; [simpl; lia|].
    replace (length (present (window 20 19
               (typical_price gap_closes gap_highs gap_lows))))
      with 19 by reflexivity.
    lia.
Qed.

Lemma length_present_rows (tp : Series) i :
  19 <= i ->
  length (present (window 20 i tp)) = length (present (rows_of (i - 19) 20 tp)).
Proof.
  intros H. rewrite window_rows by lia. now replace (i + 1 - 20) with (i - 19) by lia.
Qed.

(** X18 -- typical price and deviation.  On every candle table the engine
    returns; TP at each row is (high + low + close) / 3 of that row.  At a
    row i >= 19 whose twenty TP values of rows i-19 to i are all present,
    STD is their sample standard deviation (denominator n - 1); when one of
    them is missing, STD is missing at row i. *)
Theorem typical_price_and_deviation d c h l :
  prices d c h l ->
  exists d' tp sd,
    movingAverages d = (Return tt, d')
    /\ col_float "TP" d' = (Return tp, d')
    /\ col_float "STD" d' = (Return sd, d')
    /\ length tp = length c
    /\ (forall i hi li ci,
          nth_error h i = Some hi -> nth_error l i = Some li ->
          nth_error c i = Some ci ->
          nth_error tp i = Some (fdiv (fadd (fadd hi li) ci) (Some 3%R)))
    /\ (forall i, 19 <= i -> i < length c ->
          length (present (rows_of (i - 19) 20 tp)) = 20 ->
          nth_error sd i = Some (sample_std (rows_of (i - 19) 20 tp)))
    /\ (forall i, 19 <= i -> i < length c ->
          length (present (rows_of (i - 19) 20 tp)) < 20 ->
          nth_error sd i = Some nan).
Proof.
  intros P.
  pose proof (length_typical_price c h l (prices_high_rows P) (prices_low_rows P))
    as Ltp.
  exists (with_indicators c h l d), (typical_price c h l),
    (rolling_std 20 (typical_price c h l)).
  split; [now apply movingAverages_returns|].
  split; [apply read_TP|]. split; [apply read_STD|].
  split; [exact Ltp|]. split; [|split].
  - intros i hi li ci. apply typical_price_row.
  - intros i H19 Hi Hfull.
    replace (i - 19) with (i + 1 - 20) in * by lia.
    apply rolling_std_naive; try lia; exact Hfull.
  - intros i H19 Hi Hgap.
    apply rolling_std_gap; [lia|].
    now rewrite length_present_rows by assumption.
Qed.

Lemma typical_price_and_deviation_witness :
  exists d' tp sd,
    movingAverages table_25 = (Return tt, d')
    /\ col_float "TP" d' = (Return tp, d')
    /\ col_float "STD" d' = (Return sd, d')
    /\ nth_error tp 0
       = Some (fdiv (fadd (fadd (Some 101%R) (Some 99%R)) (Some 100%R))
                    (Some 3%R))
    /\ nth_error sd 19 = Some (Some (sqrt 35)).
Proof.
  destruct (typical_price_and_deviation _ _ _ _ prices_table_25)
    as [d' [tp [sd [Hrun [Htp [Hsd [Hlen [Hrow [Hstd _]]]]]]]]].
  pose proof Hrun as E.
  rewrite (movingAverages_returns _ _ _ _ prices_table_25) in E.
  inversion E as [Ed]. clear E.
  pose proof Htp as Et. rewrite <- Ed, read_TP in Et. inversion Et as [Etp].
  assert (F : rows_of 0 20 tp
              = map (fun z => Some (IZR z))
                  [100; 101; 102; 103; 104; 105; 106; 107; 108; 109; 110;
                   111; 112; 113; 114; 115; 116; 117; 118; 119]%Z)
    by (rewrite <- Etp; exact first_twenty_typical_prices).
  exists d', tp, sd. repeat split; try assumption.
  - apply (Hrow 0 (Some 101%R) (Some 99%R) (Some 100%R)); reflexivity.
  - rewrite (Hstd 19); [| lia | simpl; lia |]; change (19 - 19) with 0;
      rewrite F; [now rewrite deviation_of_first_twenty | reflexivity].
Defined.
